(** * The financial KPI core of [backend/server.py]

    A shallow embedding of the three functions that make up the core of the
    server ([detect_columns], [clean_numeric_value], [calculate_kpis]) and
    of the parts of the Python run time they rest on, followed by the
    properties of the specification that concern them.

    - Python [str] is a sequence of Unicode code points: [list N].
    - Python [float] is IEEE 754 binary64: Rocq's primitive [float].
    - Python [int] is unbounded: [Z].
    - Exceptions are values of [result]; [try]/[except] is a [match].
    - The builtin [sum] adds from left to right, starting from zero. *)

From Stdlib Require Import ZArith NArith List Bool Lia String Ascii Floats.
Import ListNotations.

Local Open Scope string_scope.
Local Open Scope list_scope.
Local Open Scope N_scope.

(** ** Exceptions *)

Inductive exn : Set :=
| ValueError
| OverflowError
| ZeroDivisionError.

Inductive result (A : Type) : Type :=
| Ok (a : A)
| Raise (e : exn).

Arguments Ok {A} a.
Arguments Raise {A} e.

Definition bind {A B : Type} (r : result A) (k : A -> result B) : result B :=
  match r with
  | Ok a => k a
  | Raise e => Raise e
  end.

Notation "x <- r ;; k" := (bind r (fun x => k))
  (at level 61, r at next level, right associativity).

(** ** Python strings *)

Module PyStr.

Definition str : Set := list N.

(** An ASCII literal as a Python string: one code point per character. *)
Definition py (s : string) : str := map N_of_ascii (list_ascii_of_string s).

(** The code point of a one-character ASCII literal. *)
Definition ch (s : string) : N :=
  match s with
  | String a _ => N_of_ascii a
  | EmptyString => 0
  end.

Definition str_eqb (a b : str) : bool :=
  if list_eq_dec N.eq_dec a b then true else false.

(** [Py_UNICODE_ISSPACE]: what [str.strip], [str.isspace] and the regular
    expression class [\s] (on a [str] pattern) take for white space. *)
Definition isspace (c : N) : bool :=
  ((0x09 <=? c) && (c <=? 0x0D)) || ((0x1C <=? c) && (c <=? 0x20))
  || (c =? 0x85) || (c =? 0xA0) || (c =? 0x1680)
  || ((0x2000 <=? c) && (c <=? 0x200A))
  || (c =? 0x2028) || (c =? 0x2029) || (c =? 0x202F) || (c =? 0x205F)
  || (c =? 0x3000).

(** [Py_ISSPACE]: the ASCII white space of the C locale. *)
Definition c_isspace (c : N) : bool :=
  ((0x09 <=? c) && (c <=? 0x0D)) || (c =? 0x20).

Fixpoint lstrip_by (sp : N -> bool) (s : str) : str :=
  match s with
  | [] => []
  | c :: r => if sp c then lstrip_by sp r else s
  end.

Definition rstrip_by (sp : N -> bool) (s : str) : str :=
  rev (lstrip_by sp (rev s)).

(** [s.strip()] *)
Definition strip (s : str) : str := rstrip_by isspace (lstrip_by isspace s).

(** [s.replace(old, new)] for one-character [old] and [new]. *)
Definition replace (old new : N) (s : str) : str :=
  map (fun c => if c =? old then new else c) s.

Fixpoint startswith (s p : str) : bool :=
  match p, s with
  | [], _ => true
  | _ :: _, [] => false
  | x :: p', y :: s' => (x =? y) && startswith s' p'
  end.

(** [p in s]: [p] occurs in [s] as a contiguous run. *)
Fixpoint contains (s p : str) : bool :=
  startswith s p ||
  match s with
  | [] => false
  | _ :: s' => contains s' p
  end.

(** [str.lower] on the ASCII range; other code points are kept.  It is
    [str.lower] itself on ASCII strings, and is used where the run time
    folds the case of an ASCII keyword. *)
Definition lower_ascii_char (c : N) : N :=
  if (0x41 <=? c) && (c <=? 0x5A) then c + 0x20 else c.

Definition lower_ascii (s : str) : str := map lower_ascii_char s.

(** [re.sub('[' cls '\s]', '', s)]: drop the characters of a class. *)
Definition re_sub_class (cls : list N) (s : str) : str :=
  filter (fun c => negb (existsb (N.eqb c) cls || isspace c)) s.

End PyStr.
Import PyStr.

(** ** Python numbers *)

Module PyNum.

(** The first code point of each run of ten decimal digits (Unicode
    general category Nd, database version 14.0.0): the digits [float]
    accepts besides 0-9.  In every run the digits 0 to 9 follow each
    other. *)
Definition decimal_zeros : list N :=
  [ 0x30; 0x660; 0x6f0; 0x7c0; 0x966; 0x9e6; 0xa66; 0xae6; 0xb66; 0xbe6;
    0xc66; 0xce6; 0xd66; 0xde6; 0xe50; 0xed0; 0xf20; 0x1040; 0x1090;
    0x17e0; 0x1810; 0x1946; 0x19d0; 0x1a80; 0x1a90; 0x1b50; 0x1bb0;
    0x1c40; 0x1c50; 0xa620; 0xa8d0; 0xa900; 0xa9d0; 0xa9f0; 0xaa50;
    0xabf0; 0xff10; 0x104a0; 0x10d30; 0x11066; 0x110f0; 0x11136; 0x111d0;
    0x112f0; 0x11450; 0x114d0; 0x11650; 0x116c0; 0x11730; 0x118e0;
    0x11950; 0x11c50; 0x11d50; 0x11da0; 0x16a60; 0x16ac0; 0x16b50;
    0x1d7ce; 0x1d7d8; 0x1d7e2; 0x1d7ec; 0x1d7f6; 0x1e140; 0x1e2f0;
    0x1e950; 0x1fbf0 ].

(** [Py_UNICODE_TODECIMAL] *)
Definition to_decimal (c : N) : option N :=
  match find (fun z => (z <=? c) && (c <? z + 10)) decimal_zeros with
  | Some z => Some (c - z)
  | None => None
  end.

(** [_PyUnicode_TransformDecimalAndSpaceToASCII]: white space becomes a
    blank, a decimal digit its ASCII digit, and the text is cut after the
    first other character beyond ASCII, which becomes a question mark. *)
Fixpoint transform_decimal_and_space (s : str) : str :=
  match s with
  | [] => []
  | c :: r =>
      if c <? 127 then c :: transform_decimal_and_space r
      else if isspace c then ch " " :: transform_decimal_and_space r
      else match to_decimal c with
           | Some d => (ch "0" + d) :: transform_decimal_and_space r
           | None => [ch "?"]
           end
  end.

Definition is_digit (c : N) : bool := (ch "0" <=? c) && (c <=? ch "9").

(** [_Py_string_to_number_with_underscores]: an underscore is allowed
    between two digits only, and is dropped; [prev] is the character
    before [s]. *)
Fixpoint drop_underscores (prev : N) (s : str) : option str :=
  match s with
  | [] => if prev =? ch "_" then None else Some []
  | c :: r =>
      if c =? ch "_" then
        if is_digit prev then drop_underscores c r else None
      else if (prev =? ch "_") && negb (is_digit c) then None
      else option_map (cons c) (drop_underscores c r)
  end.

Fixpoint span_digits (s : str) : str * str :=
  match s with
  | [] => ([], [])
  | c :: r =>
      if is_digit c then let (ds, rest) := span_digits r in (c :: ds, rest)
      else ([], s)
  end.

(** The number a run of ASCII digits writes. *)
Definition digits_value (ds : str) : N :=
  fold_left (fun acc c => 10 * acc + (c - ch "0")) ds 0.

Definition parse_sign (s : str) : bool * str :=
  match s with
  | c :: r => if c =? ch "-" then (true, r)
              else if c =? ch "+" then (false, r)
              else (false, s)
  | [] => (false, [])
  end.

(** The exponent part, up to the end of the text: nothing, or [e] or [E],
    a sign and at least one digit. *)
Definition parse_exponent (s : str) : option Z :=
  match s with
  | [] => Some 0%Z
  | c :: r =>
      if (c =? ch "e") || (c =? ch "E") then
        let (neg, r1) := parse_sign r in
        match span_digits r1 with
        | ([], _) => None
        | (ds, []) =>
            let v := Z.of_N (digits_value ds) in
            Some (if neg then (- v)%Z else v)
        | (_, _ :: _) => None
        end
      else None
  end.

(** A decimal literal without sign, up to the end of the text: digits
    with at most one point and at least one digit, then the exponent.
    The result is the integer its digits write and the power of ten that
    scales it. *)
Definition parse_decimal (s : str) : option (N * Z) :=
  let (ip, r1) := span_digits s in
  let (fp, r2) :=
    match r1 with
    | c :: r => if c =? ch "." then span_digits r else ([], r1)
    | [] => ([], [])
    end in
  match ip ++ fp with
  | [] => None
  | ds =>
      match parse_exponent r2 with
      | Some e => Some (digits_value ds, (e - Z.of_nat (List.length fp))%Z)
      | None => None
      end
  end.

(** The binary64 number nearest to [m * 10 ^ e] (ties to even), with the
    sign [neg]: what the run time's [strtod] returns. *)
Definition float_of_decimal (neg : bool) (m : N) (e : Z) : float :=
  SF2Prim
    match m with
    | N0 => S754_zero neg
    | Npos p =>
        if (0 <=? e)%Z then
          binary_round prec emax neg (p * Z.to_pos (10 ^ e)) 0
        else
          SFdiv prec emax (S754_finite neg p 0)
                (S754_finite false (Z.to_pos (10 ^ (- e))) 0)
    end.

(** [float_from_string_inner]: sign, then [inf], [infinity] or [nan] in
    any case, or a decimal literal. *)
Definition parse_float (s : str) : option float :=
  let (neg, r) := parse_sign s in
  let kw := lower_ascii r in
  if str_eqb kw (py "inf") || str_eqb kw (py "infinity") then
    Some (if neg then neg_infinity else infinity)
  else if str_eqb kw (py "nan") then Some nan
  else match parse_decimal r with
       | Some (m, e) => Some (float_of_decimal neg m e)
       | None => None
       end.

(** [float(s)] for a [str] *)
Definition float_of_str (s : str) : result float :=
  let t := transform_decimal_and_space s in
  let t := rstrip_by c_isspace (lstrip_by c_isspace t) in
  match drop_underscores 0 t with
  | Some u =>
      match parse_float u with
      | Some f => Ok f
      | None => Raise ValueError
      end
  | None => Raise ValueError
  end.

(** [float(z)] for an [int]: the nearest binary64 number (ties to even),
    and [OverflowError] when that is beyond the largest one. *)
Definition float_of_int (z : Z) : result float :=
  match binary_normalize prec emax z 0 false with
  | S754_infinity _ => Raise OverflowError
  | f => Ok (SF2Prim f)
  end.

(** [a / b] on two [float]s *)
Definition truediv (a b : float) : result float :=
  if (b =? 0)%float then Raise ZeroDivisionError else Ok (a / b)%float.

End PyNum.
Import PyNum.

(** ** The server core *)

Module Server.

(** A Python [dict] from [str] to [str], in insertion order. *)
Definition dict : Set := list (str * str).

Fixpoint dict_get (d : dict) (k : str) : option str :=
  match d with
  | [] => None
  | (k', v) :: r => if str_eqb k' k then Some v else dict_get r k
  end.

(** [k in d] *)
Definition dict_mem (d : dict) (k : str) : bool :=
  match dict_get d k with
  | Some _ => true
  | None => false
  end.

(** [d[k] = v] *)
Fixpoint dict_set (d : dict) (k v : str) : dict :=
  match d with
  | [] => [(k, v)]
  | (k', v') :: r =>
      if str_eqb k' k then (k', v) :: r else (k', v') :: dict_set r k v
  end.

Definition COLUMN_PATTERNS : list (str * list str) :=
  [ (py "revenus",
     map py ["revenus"; "revenue"; "sales"; "ventes"; "chiffre_affaires";
             "ca"; "turnover"; "income"]);
    (py "charges",
     map py ["charges"; "expenses"; "costs"; "depenses";
             "charges_operationnelles"; "operating_expenses"]);
    (py "ebitda",
     map py ["ebitda";
             "earnings_before_interest_taxes_depreciation_amortization"]);
    (py "resultat_operationnel",
     map py ["resultat_operationnel"; "operating_income";
             "operating_result"; "ebit"]);
    (py "amortissements",
     map py ["amortissements"; "depreciation"; "amortization";
             "depreciation_amortization"]);
    (py "resultat_net",
     map py ["resultat_net"; "net_income"; "net_profit"; "benefice_net";
             "profit"]);
    (py "impots", map py ["impots"; "taxes"; "tax"; "impot_societes"]);
    (py "cash_flow", map py ["cash_flow"; "cashflow"; "flux_tresorerie"]);
    (py "investissements",
     map py ["investissements"; "investments"; "capex";
             "capital_expenditure"]);
    (py "date",
     map py ["date"; "periode"; "month"; "mois"; "year"; "annee";
             "trimestre"; "quarter"]) ].

(** *** [detect_columns] *)

Section Detect.

(** [str.lower]: the case tables of Unicode are not part of the
    repository, and nothing below depends on them. *)
Variable lower : str -> str.

(** [col.lower().replace(' ', '_').replace('-', '_')] *)
Definition normalize (col : str) : str :=
  replace (ch "-") (ch "_") (replace (ch " ") (ch "_") (lower col)).

(** [for pattern in patterns: if pattern in col or col in pattern:
    detected[financial_type] = df.columns[col_idx]; break] *)
Fixpoint pattern_loop (financial_type original col : str)
         (patterns : list str) (detected : dict) : dict :=
  match patterns with
  | [] => detected
  | pattern :: rest =>
      if contains col pattern || contains pattern col
      then dict_set detected financial_type original
      else pattern_loop financial_type original col rest detected
  end.

(** [for col_idx, col in enumerate(columns): ...;
    if financial_type in detected: break]; a column comes as the pair
    of [df.columns[col_idx]] and [columns[col_idx]]. *)
Fixpoint column_loop (financial_type : str) (patterns : list str)
         (columns : list (str * str)) (detected : dict) : dict :=
  match columns with
  | [] => detected
  | (original, col) :: rest =>
      let detected :=
        pattern_loop financial_type original col patterns detected in
      if dict_mem detected financial_type then detected
      else column_loop financial_type patterns rest detected
  end.

(** [detect_columns(df)], as a function of [df.columns] *)
Definition detect_columns (df_columns : list str) : dict :=
  let columns := map normalize df_columns in
  fold_left
    (fun detected '(financial_type, patterns) =>
       column_loop financial_type patterns (combine df_columns columns)
                   detected)
    COLUMN_PATTERNS [].

End Detect.

(** *** Cells and data frames *)

(** What a cell of the data frame holds: [None] (or another missing
    marker), a [bool], an [int], a [float] (NaN among them), a [str]. *)
Inductive value : Set :=
| VNone
| VBool (b : bool)
| VInt (z : Z)
| VFloat (f : float)
| VStr (s : str).

(** A data frame: its columns in order, each a label and its cells. *)
Definition DataFrame : Set := list (str * list value).

(** [df.columns] *)
Definition columns (df : DataFrame) : list str := map fst df.

(** [df[col_name]], iterated: the cells of the column of that label; when
    several columns carry the label the selection is a data frame, and
    iterating it yields their labels. *)
Definition getitem (df : DataFrame) (col_name : str) : list value :=
  match filter (fun c => str_eqb (fst c) col_name) df with
  | [c] => snd c
  | cs => map (fun c => VStr (fst c)) cs
  end.

(** *** [clean_numeric_value] *)

(** [pd.isna(value)] *)
Definition isna (v : value) : bool :=
  match v with
  | VNone => true
  | VFloat f => is_nan f
  | _ => false
  end.

(** [value == ''] *)
Definition eq_empty (v : value) : bool :=
  match v with
  | VStr [] => true
  | _ => false
  end.

(** [value is None] *)
Definition is_None (v : value) : bool :=
  match v with
  | VNone => true
  | _ => false
  end.

(** The characters between the brackets of the pattern of [re.sub],
    before [\s], as the source file has them:
    U+00E2 U+201A U+00AC, [$], U+00C2 U+0141, U+00C2 U+0104,
    U+00E2 U+201A U+0105. *)
Definition symbol_class : list N :=
  [0xE2; 0x201A; 0xAC; ch "$"; 0xC2; 0x141; 0xC2; 0x104;
   0xE2; 0x201A; 0x105].

Definition clean_numeric_value (v : value) : result float :=
  if isna v || eq_empty v || is_None v then Ok 0%float
  else
    match v with
    | VBool b => Ok (if b then 1%float else 0%float)
    | VInt z => float_of_int z
    | VFloat f => Ok f
    | VStr s =>
        let str_value := strip s in
        let str_value := re_sub_class symbol_class str_value in
        let str_value := replace (ch ",") (ch ".") str_value in
        match float_of_str str_value with
        | Raise ValueError => Ok 0%float
        | r => r
        end
    | VNone => Ok 0%float
    end.

(** *** [calculate_kpis] *)

Record kpis : Set := {
  revenus_totaux : float;
  ebitda : float;
  resultat_net : float;
  free_cash_flow : float;
  marge_nette : float
}.

(** [sum(clean_numeric_value(val) for val in cells)], from the running
    total [acc]: the cells are cleaned and added one after the other.
    The [int] 0 that [sum] starts from, and returns for no cell at all,
    is the float 0.0 here: Python converts it so in every operation
    below. *)
Fixpoint sum_from (acc : float) (cells : list value) : result float :=
  match cells with
  | [] => Ok acc
  | val :: rest =>
      x <- clean_numeric_value val ;;
      sum_from (acc + x)%float rest
  end.

Definition get_column_sum (df : DataFrame) (detected_columns : dict)
           (column_type : str) : result float :=
  match dict_get detected_columns column_type with
  | Some col_name =>
      if existsb (str_eqb col_name) (columns df)
      then sum_from 0%float (getitem df col_name)
      else Ok 0%float
  | None => Ok 0%float
  end.

Definition calculate_kpis (df : DataFrame) (detected_columns : dict)
  : result kpis :=
  let get_column_sum := get_column_sum df detected_columns in
  revenus_totaux <- get_column_sum (py "revenus") ;;
  resultat_op <- get_column_sum (py "resultat_operationnel") ;;
  amortissements <- get_column_sum (py "amortissements") ;;
  ebitda <-
    (if (0 <? resultat_op)%float then Ok (resultat_op + amortissements)%float
     else
       charges <- get_column_sum (py "charges") ;;
       Ok (revenus_totaux - charges)%float) ;;
  net_income <- get_column_sum (py "resultat_net") ;;
  resultat_net <-
    (if (0 <? net_income)%float then Ok net_income
     else
       charges <- get_column_sum (py "charges") ;;
       impots <- get_column_sum (py "impots") ;;
       Ok (revenus_totaux - charges - impots)%float) ;;
  cash_flow <- get_column_sum (py "cash_flow") ;;
  investissements <- get_column_sum (py "investissements") ;;
  let free_cash_flow :=
    if (0 <? cash_flow)%float then (cash_flow - investissements)%float
    else (resultat_net - investissements)%float in
  marge_nette <-
    (if (0 <? revenus_totaux)%float
     then
       ratio <- truediv resultat_net revenus_totaux ;;
       Ok (ratio * 100)%float
     else Ok 0%float) ;;
  Ok {| revenus_totaux := revenus_totaux;
        ebitda := ebitda;
        resultat_net := resultat_net;
        free_cash_flow := free_cash_flow;
        marge_nette := marge_nette |}.

End Server.
Import Server.

(** ** The notions of the specification *)

Module Spec.

(** [p] is a substring of [s]. *)
Definition substring (p s : str) : Prop :=
  exists pre post, s = pre ++ p ++ post.

Section Scan.

Variable lower : str -> str.

(** A normalized header matches a category when one of its patterns is
    a substring of the header, or the header of the pattern. *)
Definition matches (patterns : list str) (col : str) : bool :=
  existsb (fun pattern => contains col pattern || contains pattern col)
          patterns.

(** The first header, in their order, that matches the category. *)
Definition first_match (patterns : list str) (headers : list str)
  : option str :=
  find (fun h => matches patterns (normalize lower h)) headers.

(** The ordered scan: the categories in the order of the registry, each
    with its first matching header, and left out when it has none. *)
Definition ordered_scan (headers : list str) : dict :=
  flat_map
    (fun '(category, patterns) =>
       match first_match patterns headers with
       | Some h => [(category, h)]
       | None => []
       end)
    COLUMN_PATTERNS.

End Scan.

(** The data set of the end-to-end scenario, for any cells of the two
    columns it leaves open. *)
Definition scenario_headers : list str :=
  map py ["Date"; "Revenus"; "Charges"; "EBITDA"; "Resultat_Net";
          "Cash_Flow"; "Investissements"].

Definition scenario (date_cells ebitda_cells : list value) : DataFrame :=
  combine scenario_headers
    [ date_cells;
      map VInt [100000; 120000; 110000; 130000; 125000]%Z;
      map VInt [60000; 70000; 65000; 75000; 72000]%Z;
      ebitda_cells;
      map VInt [25000; 30000; 28000; 35000; 33000]%Z;
      map VInt [30000; 35000; 32000; 40000; 38000]%Z;
      map VInt [5000; 8000; 6000; 10000; 7000]%Z ].

(** The two open columns as [create_sample_csv] of [backend_test.py]
    fills them. *)
Definition sample_dates : list value :=
  map (fun s => VStr (py s))
      ["2024-01"; "2024-02"; "2024-03"; "2024-04"; "2024-05"].

Definition sample_ebitda : list value :=
  map VInt [45000; 55000; 50000; 60000; 58000]%Z.

(** The data frame with one more row, a cell for each column. *)
Definition append_row (df : DataFrame) (row : list value) : DataFrame :=
  map (fun '((label, cells), cell) => (label, cells ++ [cell]))
      (combine df row).

(** The cell is cleaned to zero, of either sign. *)
Definition cleans_to_zero (v : value) : bool :=
  match clean_numeric_value v with
  | Ok x => (x =? 0)%float
  | Raise _ => false
  end.

(** An [int] cell is below [2 ^ 1023] in magnitude, as every 64-bit
    integer is. *)
Definition int_in_range (v : value) : bool :=
  match v with
  | VInt z => (Z.abs z <? 2 ^ 1023)%Z
  | _ => true
  end.

(** All the cells of a data frame. *)
Definition cells (df : DataFrame) : list value := flat_map snd df.

(** The text of a cell as it reaches [float]. *)
Definition cleaned_text (s : str) : str :=
  replace (ch ",") (ch ".") (re_sub_class symbol_class (strip s)).

(** The currency signs of the specification: euro, pound, yen, rupee. *)
Definition euro : N := 0x20AC.
Definition pound : N := 0xA3.
Definition yen : N := 0xA5.
Definition rupee : N := 0x20B9.

(** A measure of what [float] cannot read twice: a point weighs one, a
    question mark two, any other character nothing. *)
Definition point_weight (c : N) : nat :=
  if c =? ch "." then 1%nat else if c =? ch "?" then 2%nat else 0%nat.

Definition points (s : str) : nat := list_sum (map point_weight s).

(** A data frame with a net loss and no cash-flow column. *)
Definition loss_frame : DataFrame :=
  [ (py "Revenus", [VInt 10]);
    (py "Charges", [VInt 3]);
    (py "Resultat_Net", [VInt (-5)]);
    (py "Investissements", [VInt 2]) ].

End Spec.
Import Spec.

Abbreviation count c s := (count_occ N.eq_dec s c) (only parsing).

(** ** The routes *)

Module Api.

(** What a route can raise: an exception of the core, the [HTTPException]
    of the framework, or any other exception of the libraries the routes
    call (decoding, parsing, the data base, serialisation).  All of them
    are instances of [Exception]. *)
Inductive py_exn : Set :=
| CoreError (e : exn)
| HTTPException (status_code : Z) (detail : str)
| LibraryError (message : str).

Inductive outcome (A : Type) : Type :=
| Return (a : A)
| Throw (e : py_exn).

Arguments Return {A} a.
Arguments Throw {A} e.

(** [s.endswith(suffix)] *)
Definition endswith (s suffix : str) : bool :=
  startswith (rev s) (rev suffix).

(** The uploaded file: its name and the bytes [file.read()] gives. *)
Record UploadFile : Set := {
  filename : str;
  contents : list N
}.

(** The model [FinancialData]; [raw_data] holds the records of the data
    frame, that is the frame itself. *)
Record FinancialData : Set := {
  id : str;
  data_filename : str;
  upload_date : Z;
  raw_data : DataFrame;
  detected_columns : dict;
  data_kpis : kpis
}.

(** The content of the response of [upload_csv]. *)
Record upload_content : Set := {
  content_id : str;
  content_filename : str;
  content_detected_columns : dict;
  content_kpis : kpis;
  data_preview : DataFrame
}.

(** [df.head(n)] *)
Definition head (n : nat) (df : DataFrame) : DataFrame :=
  map (fun '(label, cells) => (label, firstn n cells)) df.

Section Routes.

(** [str.lower], as for [detect_columns]. *)
Variable lower : str -> str.

(** [str(e)] *)
Variable str_exn : py_exn -> str.

(** [pd.read_csv(io.StringIO(contents.decode('utf-8')))] *)
Variable read_csv : list N -> outcome DataFrame.

(** [uuid.uuid4()] as text and [datetime.utcnow()], the defaults of the
    fields [id] and [upload_date]. *)
Variable uuid4 : str.
Variable utcnow : Z.

(** The collection [db.financial_data], its stored documents, and
    [insert_one] and [find_one] on the key ["id"]. *)
Variable collection : Type.
Variable document : Type.
Variable insert_one : collection -> FinancialData -> outcome unit * collection.
Variable find_one : collection -> str -> outcome (option document).

(** [JSONResponse(content)], rendered. *)
Variable json : Type.
Variable JSONResponse_upload : upload_content -> outcome json.
Variable JSONResponse_document : document -> outcome json.

(** The body of the [try] of [upload_csv]. *)
Definition upload_csv_try (file : UploadFile) (db : collection)
  : outcome json * collection :=
  if negb (endswith (filename file) (py ".csv")) then
    (Throw (HTTPException 400 (py "File must be a CSV")), db)
  else
    match read_csv (contents file) with
    | Throw e => (Throw e, db)
    | Return df =>
        let detected_columns := detect_columns lower (columns df) in
        match calculate_kpis df detected_columns with
        | Raise e => (Throw (CoreError e), db)
        | Ok kpis =>
            let financial_data :=
              {| id := uuid4;
                 data_filename := filename file;
                 upload_date := utcnow;
                 raw_data := df;
                 detected_columns := detected_columns;
                 data_kpis := kpis |} in
            match insert_one db financial_data with
            | (Throw e, db') => (Throw e, db')
            | (Return _, db') =>
                (JSONResponse_upload
                   {| content_id := id financial_data;
                      content_filename := filename file;
                      content_detected_columns := detected_columns;
                      content_kpis := kpis;
                      data_preview := head 5 df |},
                 db')
            end
        end
    end.

(** [upload_csv]: the [try] and its [except Exception as e]. *)
Definition upload_csv (file : UploadFile) (db : collection)
  : outcome json * collection :=
  match upload_csv_try file db with
  | (Throw e, db') =>
      (Throw (HTTPException
                500 (py "Error processing file: " ++ str_exn e)), db')
  | r => r
  end.

(** [get_financial_data]: it does not write to the collection. *)
Definition get_financial_data (data_id : str) (db : collection)
  : outcome json :=
  let body :=
    match find_one db data_id with
    | Throw e => Throw e
    | Return None =>
        Throw (HTTPException 404 (py "Financial data not found"))
    | Return (Some data) => JSONResponse_document data
    end in
  match body with
  | Throw e =>
      Throw (HTTPException 500 (py "Error retrieving data: " ++ str_exn e))
  | r => r
  end.

End Routes.

End Api.

(** ** Further notions *)

Module More.

(** The data frame without the cells that are cleaned to zero. *)
Definition drop_zero_cells (df : DataFrame) : DataFrame :=
  map (fun '(label, cells) =>
         (label, filter (fun v => negb (cleans_to_zero v)) cells))
      df.

(** The result of [calculate_kpis] when every sum is zero. *)
Definition zero_kpis : kpis :=
  {| revenus_totaux := 0; ebitda := 0; resultat_net := 0;
     free_cash_flow := 0; marge_nette := 0 |}.

(** What [clean_numeric_value] makes of the result of [float]. *)
Definition or_zero (r : result float) : result float :=
  match r with
  | Raise ValueError => Ok 0%float
  | r => r
  end.

End More.
Import More.

(** * Properties *)

(** ** Strings *)

Lemma str_eqb_eq (a b : str) : str_eqb a b = true <-> a = b.
Proof.
  unfold str_eqb. destruct (list_eq_dec N.eq_dec a b); split; congruence.
Qed.

Lemma str_eqb_refl (a : str) : str_eqb a a = true.
Proof. now apply str_eqb_eq. Qed.

Lemma str_eqb_neq (a b : str) : a <> b -> str_eqb a b = false.
Proof.
  intros H. destruct (str_eqb a b) eqn:E; [|reflexivity].
  apply str_eqb_eq in E. contradiction.
Qed.

Lemma startswith_spec (s p : str) :
  startswith s p = true <-> exists post, s = p ++ post.
Proof.
  revert s. induction p as [|x p IH]; intros s.
  - destruct s; simpl; split; eauto.
  - destruct s as [|y s]; simpl.
    + split; [discriminate | intros [post H]; discriminate].
    + rewrite andb_true_iff, N.eqb_eq, IH. split.
      * intros [-> [post ->]]. now exists post.
      * intros [post H]. injection H as -> ->. eauto.
Qed.

Lemma contains_spec (s p : str) : contains s p = true <-> substring p s.
Proof.
  unfold substring. induction s as [|a s IH].
  - cbn [contains]. rewrite orb_false_r, startswith_spec. split.
    + intros [post H]. now exists [], post.
    + intros [pre [post H]]. destruct pre; [now exists post | discriminate].
  - cbn [contains]. rewrite orb_true_iff, startswith_spec, IH. split.
    + intros [[post H] | [pre [post H]]].
      * now exists [], post.
      * exists (a :: pre), post. now rewrite H.
    + intros [[|b pre] [post H]].
      * left. now exists post.
      * right. injection H as _ H. now exists pre, post.
Qed.

Lemma contains_empty (s : str) : contains s [] = true.
Proof. apply contains_spec. now exists [], s. Qed.

(** ** Dictionaries *)

Lemma dict_get_app (d1 d2 : dict) (k : str) :
  dict_get (d1 ++ d2) k =
  match dict_get d1 k with
  | Some v => Some v
  | None => dict_get d2 k
  end.
Proof.
  induction d1 as [|[k' v'] d1 IH]; simpl; [reflexivity|].
  now destruct (str_eqb k' k).
Qed.

Lemma dict_set_fresh (d : dict) (k v : str) :
  dict_mem d k = false -> dict_set d k v = d ++ [(k, v)].
Proof.
  unfold dict_mem. induction d as [|[k' v'] d IH]; simpl; [reflexivity|].
  destruct (str_eqb k' k); [discriminate|]. intros H. now rewrite IH.
Qed.

Lemma dict_mem_snoc (d : dict) (k k' v : str) :
  dict_mem (d ++ [(k', v)]) k = dict_mem d k || str_eqb k' k.
Proof.
  unfold dict_mem. rewrite dict_get_app. destruct (dict_get d k); simpl;
    [reflexivity|]. now destruct (str_eqb k' k).
Qed.

(** ** The scan of [detect_columns] *)

Section ScanFacts.

Variable lower : str -> str.

Lemma pattern_loop_matches ft original col patterns detected :
  pattern_loop ft original col patterns detected =
  if matches patterns col then dict_set detected ft original else detected.
Proof.
  induction patterns as [|p ps IH]; simpl; [reflexivity|].
  now destruct (contains col p || contains p col).
Qed.

Lemma column_loop_find ft patterns cols detected :
  dict_mem detected ft = false ->
  column_loop ft patterns cols detected =
  match find (fun c => matches patterns (snd c)) cols with
  | Some c => detected ++ [(ft, fst c)]
  | None => detected
  end.
Proof.
  intros Hfresh. induction cols as [|[original col] rest IH]; simpl;
    [reflexivity|].
  rewrite pattern_loop_matches. destruct (matches patterns col).
  - rewrite (dict_set_fresh _ _ _ Hfresh), dict_mem_snoc, str_eqb_refl.
    now rewrite orb_true_r.
  - now rewrite Hfresh.
Qed.

Lemma find_normalized patterns (headers : list str) :
  find (fun c => matches patterns (snd c))
       (combine headers (map (normalize lower) headers)) =
  option_map (fun h => (h, normalize lower h))
             (first_match lower patterns headers).
Proof.
  unfold first_match. induction headers as [|h hs IH]; simpl;
    [reflexivity|].
  now destruct (matches patterns (normalize lower h)).
Qed.

(** One category of the registry adds its first matching header, if any,
    at the end of the dictionary. *)
Lemma column_loop_first_match ft patterns headers detected :
  dict_mem detected ft = false ->
  column_loop ft patterns
              (combine headers (map (normalize lower) headers)) detected =
  detected ++ match first_match lower patterns headers with
              | Some h => [(ft, h)]
              | None => []
              end.
Proof.
  intros Hfresh. rewrite (column_loop_find _ _ _ _ Hfresh), find_normalized.
  destruct (first_match lower patterns headers); simpl;
    [reflexivity | now rewrite app_nil_r].
Qed.

Lemma scan_registry (registry : list (str * list str)) headers detected :
  NoDup (map fst registry) ->
  (forall k, In k (map fst registry) -> dict_mem detected k = false) ->
  fold_left
    (fun detected '(ft, patterns) =>
       column_loop ft patterns
                   (combine headers (map (normalize lower) headers))
                   detected)
    registry detected =
  detected ++
  flat_map (fun '(category, patterns) =>
              match first_match lower patterns headers with
              | Some h => [(category, h)]
              | None => []
              end) registry.
Proof.
  revert detected.
  induction registry as [|[ft patterns] registry IH];
    intros detected Hnd Hfresh;
    simpl; [now rewrite app_nil_r|].
  inversion Hnd as [|? ? Hnotin Hnd']; subst.
  rewrite column_loop_first_match by (apply Hfresh; now left).
  rewrite IH, <- app_assoc; [reflexivity | assumption |].
  intros k Hk.
  assert (Hd : dict_mem detected k = false) by (apply Hfresh; now right).
  destruct (first_match lower patterns headers) as [h|].
  - rewrite dict_mem_snoc, Hd. apply str_eqb_neq.
    intros ->. contradiction.
  - now rewrite app_nil_r.
Qed.

Lemma registry_keys_distinct : NoDup (map fst COLUMN_PATTERNS).
Proof.
  repeat (constructor; [vm_compute; intuition discriminate|]).
  constructor.
Qed.

Lemma detect_columns_ordered_scan (headers : list str) :
  detect_columns lower headers = ordered_scan lower headers.
Proof.
  unfold detect_columns, ordered_scan.
  rewrite scan_registry; [reflexivity | apply registry_keys_distinct |].
  reflexivity.
Qed.

(** What the scan records for a category of a registry without repeated
    keys. *)
Lemma dict_get_scan (registry : list (str * list str)) headers ft patterns :
  NoDup (map fst registry) ->
  In (ft, patterns) registry ->
  dict_get
    (flat_map (fun '(category, patterns) =>
                 match first_match lower patterns headers with
                 | Some h => [(category, h)]
                 | None => []
                 end) registry) ft =
  first_match lower patterns headers.
Proof.
  induction registry as [|[k ps] registry IH]; intros Hnd Hin; [easy|].
  inversion Hnd as [|? ? Hnotin Hnd']; subst.
  cbn [flat_map]. rewrite dict_get_app. destruct Hin as [Heq | Hin].
  - injection Heq as -> ->.
    destruct (first_match lower patterns headers) as [h|]; simpl.
    + now rewrite str_eqb_refl.
    + clear IH Hnd Hnd'. induction registry as [|[k ps] registry IH];
        [reflexivity|].
      cbn [flat_map]. rewrite dict_get_app.
      assert (Hk : k <> ft) by (intros ->; apply Hnotin; now left).
      rewrite IH by (intros H; apply Hnotin; now right).
      destruct (first_match lower ps headers); simpl;
        [now rewrite (str_eqb_neq _ _ Hk) | reflexivity].
  - assert (Hk : k <> ft).
    { intros ->. apply Hnotin.
      change ft with (fst (ft, patterns)). now apply in_map. }
    rewrite (IH Hnd' Hin).
    destruct (first_match lower ps headers); simpl;
      [now rewrite (str_eqb_neq _ _ Hk) | reflexivity].
Qed.

Lemma matches_empty patterns : patterns <> [] -> matches patterns [] = true.
Proof.
  destruct patterns as [|p ps]; [easy|]. intros _. simpl.
  now rewrite contains_empty, orb_true_r.
Qed.

Lemma first_match_app patterns pre post :
  first_match lower patterns (pre ++ post) =
  match first_match lower patterns pre with
  | Some h => Some h
  | None => first_match lower patterns post
  end.
Proof.
  unfold first_match. induction pre as [|h pre IH]; simpl; [reflexivity|].
  now destruct (matches patterns (normalize lower h)).
Qed.

End ScanFacts.

Lemma registry_patterns_nonempty :
  forall category patterns,
    In (category, patterns) COLUMN_PATTERNS -> patterns <> [].
Proof.
  intros category patterns Hin. vm_compute in Hin.
  repeat (destruct Hin as [Heq | Hin];
          [injection Heq as <- <-; discriminate|]).
  contradiction.
Qed.

Lemma scan_keys_all lower (registry : list (str * list str)) headers :
  (forall category patterns,
      In (category, patterns) registry ->
      first_match lower patterns headers <> None) ->
  map fst
      (flat_map (fun '(category, patterns) =>
                   match first_match lower patterns headers with
                   | Some h => [(category, h)]
                   | None => []
                   end) registry) = map fst registry.
Proof.
  induction registry as [|[k ps] registry IH]; intros Hall; [reflexivity|].
  cbn [flat_map].
  rewrite map_app, IH by (intros c p Hin; apply (Hall c); now right).
  specialize (Hall k ps (or_introl eq_refl)).
  now destruct (first_match lower ps headers).
Qed.

Lemma first_match_through_empty lower patterns pre h0 post :
  patterns <> [] ->
  normalize lower h0 = [] ->
  first_match lower patterns (pre ++ h0 :: post) =
  Some match first_match lower patterns pre with
       | Some h => h
       | None => h0
       end.
Proof.
  intros Hne Hh0. rewrite first_match_app.
  destruct (first_match lower patterns pre); [reflexivity|].
  unfold first_match. simpl. now rewrite Hh0, (matches_empty _ Hne).
Qed.

(** ** Column detection *)

(** C4: [detect_columns] is the ordered scan of the registry: the
    categories in the order of the registry, each with the first header, in
    the order of the headers, that matches one of its patterns; a header
    matches a pattern exactly when the pattern is a substring of the
    normalized header or the normalized header a substring of the pattern.
    For the headers Date, Revenus, Charges the result is revenus, charges
    and date with these headers, and nothing else. *)
Theorem detect_columns_is_ordered_scan
        (lower : str -> str) (headers : list str) :
  detect_columns lower headers = ordered_scan lower headers
  /\ (forall patterns col,
         matches patterns col = true <->
         exists pattern,
           In pattern patterns /\
           (substring pattern col \/ substring col pattern))
  /\ (forall category patterns,
         In (category, patterns) COLUMN_PATTERNS ->
         dict_get (detect_columns lower headers) category =
         find (fun h => matches patterns (normalize lower h)) headers)
  /\ detect_columns lower_ascii (map py ["Date"; "Revenus"; "Charges"]) =
     [ (py "revenus", py "Revenus");
       (py "charges", py "Charges");
       (py "date", py "Date") ].
Proof.
  split; [apply detect_columns_ordered_scan|].
  split.
  { intros patterns col. unfold matches. rewrite existsb_exists.
    split; intros [pattern [Hin H]]; exists pattern; split; trivial.
    - apply orb_true_iff in H. now rewrite <- !contains_spec.
    - apply orb_true_iff. now rewrite !contains_spec. }
  split; [|vm_compute; reflexivity].
  intros category patterns Hin. rewrite detect_columns_ordered_scan.
  unfold ordered_scan.
  now rewrite (dict_get_scan lower _ headers _ _ registry_keys_distinct Hin).
Qed.

Lemma detect_columns_is_ordered_scan_witness :
  dict_get (detect_columns lower_ascii (map py ["Date"; "Revenus"; "Charges"]))
           (py "date") = Some (py "Date").
Proof.
  destruct (detect_columns_is_ordered_scan
              lower_ascii (map py ["Date"; "Revenus"; "Charges"]))
    as [_ [_ [Hget _]]].
  rewrite (Hget (py "date")
                (map py ["date"; "periode"; "month"; "mois"; "year"; "annee";
                         "trimestre"; "quarter"])).
  - vm_compute. reflexivity.
  - vm_compute. tauto.
Defined.

(** C9: when a header normalizes to the empty string, every one of the
    ten categories is detected, since the empty string is a substring of
    every pattern: a category gets the first header before the empty one
    that matches it, and the empty one when there is none. *)
Theorem detect_columns_empty_header
        (lower : str -> str) (headers : list str) (h0 : str) :
  In h0 headers ->
  normalize lower h0 = [] ->
  map fst (detect_columns lower headers) = map fst COLUMN_PATTERNS
  /\ List.length (detect_columns lower headers) = 10%nat
  /\ forall pre post category patterns,
      headers = pre ++ h0 :: post ->
      In (category, patterns) COLUMN_PATTERNS ->
      dict_get (detect_columns lower headers) category =
      Some match first_match lower patterns pre with
           | Some h => h
           | None => h0
           end.
Proof.
  intros Hin Hh0.
  assert (Hkeys : map fst (detect_columns lower headers) =
                  map fst COLUMN_PATTERNS).
  { rewrite detect_columns_ordered_scan. apply scan_keys_all.
    intros category patterns Hreg.
    destruct (in_split _ _ Hin) as [pre [post ->]].
    rewrite (first_match_through_empty lower patterns pre h0 post);
      [discriminate | | assumption].
    exact (registry_patterns_nonempty _ _ Hreg). }
  split; [exact Hkeys|]. split.
  - rewrite <- (length_map fst), Hkeys. reflexivity.
  - intros pre post category patterns -> Hreg.
    rewrite detect_columns_ordered_scan. unfold ordered_scan.
    rewrite (dict_get_scan lower _ _ _ _ registry_keys_distinct Hreg).
    apply first_match_through_empty; [|assumption].
    exact (registry_patterns_nonempty _ _ Hreg).
Qed.

Lemma detect_columns_empty_header_witness :
  map fst (detect_columns lower_ascii [py "Revenus"; []; py "Charges"]) =
  map fst COLUMN_PATTERNS.
Proof.
  apply (detect_columns_empty_header lower_ascii
           [py "Revenus"; []; py "Charges"] []).
  - simpl. tauto.
  - reflexivity.
Defined.

(** ** The end-to-end scenario *)

Lemma scenario_detected :
  detect_columns lower_ascii scenario_headers =
  [ (py "revenus", py "Revenus");
    (py "charges", py "Charges");
    (py "ebitda", py "EBITDA");
    (py "resultat_operationnel", py "EBITDA");
    (py "resultat_net", py "Resultat_Net");
    (py "cash_flow", py "Cash_Flow");
    (py "investissements", py "Investissements");
    (py "date", py "Date") ].
Proof. vm_compute. reflexivity. Qed.

Lemma scenario_revenus (date_cells ebitda_cells : list value) :
  get_column_sum (scenario date_cells ebitda_cells)
                 (detect_columns lower_ascii scenario_headers)
                 (py "revenus") = Ok 585000%float.
Proof. vm_compute. reflexivity. Qed.

Lemma scenario_charges (date_cells ebitda_cells : list value) :
  get_column_sum (scenario date_cells ebitda_cells)
                 (detect_columns lower_ascii scenario_headers)
                 (py "charges") = Ok 342000%float.
Proof. vm_compute. reflexivity. Qed.

Lemma scenario_resultat_operationnel (date_cells ebitda_cells : list value) :
  get_column_sum (scenario date_cells ebitda_cells)
                 (detect_columns lower_ascii scenario_headers)
                 (py "resultat_operationnel") =
  sum_from 0%float ebitda_cells.
Proof.
  unfold get_column_sum.
  replace (dict_get (detect_columns lower_ascii scenario_headers)
                    (py "resultat_operationnel"))
    with (Some (py "EBITDA")) by (vm_compute; reflexivity).
  replace (existsb (str_eqb (py "EBITDA"))
                   (columns (scenario date_cells ebitda_cells)))
    with true by (vm_compute; reflexivity).
  replace (getitem (scenario date_cells ebitda_cells) (py "EBITDA"))
    with ebitda_cells by (vm_compute; reflexivity).
  reflexivity.
Qed.

Lemma scenario_amortissements (date_cells ebitda_cells : list value) :
  get_column_sum (scenario date_cells ebitda_cells)
                 (detect_columns lower_ascii scenario_headers)
                 (py "amortissements") = Ok 0%float.
Proof. vm_compute. reflexivity. Qed.

Lemma scenario_resultat_net (date_cells ebitda_cells : list value) :
  get_column_sum (scenario date_cells ebitda_cells)
                 (detect_columns lower_ascii scenario_headers)
                 (py "resultat_net") = Ok 151000%float.
Proof. vm_compute. reflexivity. Qed.

Lemma scenario_cash_flow (date_cells ebitda_cells : list value) :
  get_column_sum (scenario date_cells ebitda_cells)
                 (detect_columns lower_ascii scenario_headers)
                 (py "cash_flow") = Ok 175000%float.
Proof. vm_compute. reflexivity. Qed.

Lemma scenario_investissements (date_cells ebitda_cells : list value) :
  get_column_sum (scenario date_cells ebitda_cells)
                 (detect_columns lower_ascii scenario_headers)
                 (py "investissements") = Ok 36000%float.
Proof. vm_compute. reflexivity. Qed.

Lemma scenario_kpis (date_cells ebitda_cells : list value) (s : float) :
  sum_from 0%float ebitda_cells = Ok s ->
  calculate_kpis (scenario date_cells ebitda_cells)
                 (detect_columns lower_ascii scenario_headers) =
  Ok {| revenus_totaux := 585000;
        ebitda := if (0 <? s)%float then (s + 0)%float else 243000%float;
        resultat_net := 151000;
        free_cash_flow := 139000;
        marge_nette := (151000 / 585000 * 100)%float |}.
Proof.
  intros Hs. unfold calculate_kpis.
  rewrite scenario_revenus, scenario_resultat_operationnel, Hs,
    scenario_amortissements, scenario_resultat_net, scenario_cash_flow,
    scenario_investissements, scenario_charges.
  cbn [bind]. destruct (0 <? s)%float; reflexivity.
Qed.

(** C1 (as amended): for the data set of the end-to-end scenario, whatever
    the cells of its Date and EBITDA columns, [detect_columns] gives the
    category resultat_operationnel the header EBITDA (its pattern ebit is a
    substring of ebitda) and finds no header for amortissements.  With [s]
    the sum of the EBITDA column, [calculate_kpis] yields revenus_totaux
    585000, resultat_net 151000, free_cash_flow 139000, marge_nette
    151000 / 585000 * 100 (between 25.8115 and 25.8125), and for ebitda
    the sum [s + 0] when [s] is positive; the value 243000 of the other
    branch comes out only when [s] is not positive.  The sample values of
    the repository sum to 268000. *)
Theorem scenario_end_to_end (date_cells ebitda_cells : list value) (s : float) :
  sum_from 0%float ebitda_cells = Ok s ->
  dict_get (detect_columns lower_ascii scenario_headers)
           (py "resultat_operationnel") = Some (py "EBITDA")
  /\ dict_get (detect_columns lower_ascii scenario_headers)
              (py "amortissements") = None
  /\ calculate_kpis (scenario date_cells ebitda_cells)
                    (detect_columns lower_ascii scenario_headers) =
     Ok {| revenus_totaux := 585000;
           ebitda := if (0 <? s)%float then (s + 0)%float else 243000%float;
           resultat_net := 151000;
           free_cash_flow := 139000;
           marge_nette := (151000 / 585000 * 100)%float |}
  /\ sum_from 0%float sample_ebitda = Ok 268000%float
  /\ (25.8115234375 <? 151000 / 585000 * 100)%float = true
  /\ (151000 / 585000 * 100 <? 25.8125)%float = true.
Proof.
  intros Hs.
  split; [vm_compute; reflexivity|].
  split; [vm_compute; reflexivity|].
  split; [now apply scenario_kpis|].
  repeat split; vm_compute; reflexivity.
Qed.

Lemma scenario_end_to_end_witness :
  calculate_kpis (scenario sample_dates sample_ebitda)
                 (detect_columns lower_ascii scenario_headers) =
  Ok {| revenus_totaux := 585000;
        ebitda := 268000;
        resultat_net := 151000;
        free_cash_flow := 139000;
        marge_nette := (151000 / 585000 * 100)%float |}.
Proof.
  destruct (scenario_end_to_end sample_dates sample_ebitda 268000%float)
    as [_ [_ [H _]]].
  - vm_compute. reflexivity.
  - rewrite H. vm_compute. reflexivity.
Defined.

(** On the sample of the repository the scenario does not give the values
    the specification lists: ebitda is 268000, not 243000. *)
Lemma scenario_sample_counterexample :
  ~ (exists k,
        calculate_kpis (scenario sample_dates sample_ebitda)
                       (detect_columns lower_ascii scenario_headers) = Ok k
        /\ revenus_totaux k = 585000%float
        /\ ebitda k = 243000%float
        /\ resultat_net k = 151000%float
        /\ free_cash_flow k = 139000%float
        /\ marge_nette k = (151000 / 585000 * 100)%float).
Proof.
  intros [k [Hk [_ [He _]]]].
  assert (Hcalc : calculate_kpis (scenario sample_dates sample_ebitda)
                    (detect_columns lower_ascii scenario_headers) =
                  Ok {| revenus_totaux := 585000;
                        ebitda := 268000;
                        resultat_net := 151000;
                        free_cash_flow := 139000;
                        marge_nette := (151000 / 585000 * 100)%float |})
    by (vm_compute; reflexivity).
  rewrite Hcalc in Hk. injection Hk as <-. clear Hcalc. simpl in He.
  apply (f_equal (fun x => (x =? 243000)%float)) in He.
  vm_compute in He. discriminate He.
Qed.

(** ** What [float] reads *)

Lemma points_app (a b : str) : points (a ++ b) = (points a + points b)%nat.
Proof. unfold points. now rewrite map_app, list_sum_app. Qed.

Lemma points_rev (s : str) : points (rev s) = points s.
Proof.
  induction s as [|c s IH]; [reflexivity|].
  simpl rev. rewrite points_app, IH. unfold points. simpl. lia.
Qed.

Lemma points_cons (c : N) (s : str) :
  points (c :: s) = (point_weight c + points s)%nat.
Proof. reflexivity. Qed.

Lemma points_lstrip (sp : N -> bool) (s : str) :
  (forall c, sp c = true -> point_weight c = 0%nat) ->
  points (lstrip_by sp s) = points s.
Proof.
  intros Hsp. induction s as [|c s IH]; [reflexivity|].
  simpl. destruct (sp c) eqn:E; [|reflexivity].
  rewrite IH, points_cons, (Hsp c E). reflexivity.
Qed.

Lemma points_rstrip (sp : N -> bool) (s : str) :
  (forall c, sp c = true -> point_weight c = 0%nat) ->
  points (rstrip_by sp s) = points s.
Proof.
  intros Hsp. unfold rstrip_by.
  now rewrite points_rev, points_lstrip, points_rev.
Qed.

Lemma isspace_weightless (c : N) : isspace c = true -> point_weight c = 0%nat.
Proof.
  unfold isspace, point_weight. intros H.
  destruct (N.eqb_spec c (ch ".")) as [->|_]; [discriminate|].
  destruct (N.eqb_spec c (ch "?")) as [->|_]; [discriminate|reflexivity].
Qed.

Lemma c_isspace_weightless (c : N) :
  c_isspace c = true -> point_weight c = 0%nat.
Proof.
  unfold c_isspace, point_weight. intros H.
  destruct (N.eqb_spec c (ch ".")) as [->|_]; [discriminate|].
  destruct (N.eqb_spec c (ch "?")) as [->|_]; [discriminate|reflexivity].
Qed.

Lemma is_digit_weightless (c : N) : is_digit c = true -> point_weight c = 0%nat.
Proof.
  unfold is_digit, point_weight. intros H.
  destruct (N.eqb_spec c (ch ".")) as [->|_]; [discriminate|].
  destruct (N.eqb_spec c (ch "?")) as [->|_]; [discriminate|reflexivity].
Qed.

Lemma to_decimal_digit (c d : N) : to_decimal c = Some d -> d < 10.
Proof.
  unfold to_decimal.
  destruct (find _ decimal_zeros) as [z|] eqn:E; [|discriminate].
  intros [= <-]. apply find_some in E. destruct E as [_ E].
  apply andb_true_iff in E. destruct E as [E1 E2].
  apply N.leb_le in E1. apply N.ltb_lt in E2. lia.
Qed.

Lemma weight_beyond_ascii (c : N) :
  (c <? 127) = false -> point_weight c = 0%nat.
Proof.
  intros H. apply N.ltb_ge in H. unfold point_weight.
  destruct (N.eqb_spec c (ch ".")) as [->|_]; [vm_compute in H; now elim H|].
  destruct (N.eqb_spec c (ch "?")) as [->|_]; [vm_compute in H; now elim H|].
  reflexivity.
Qed.

(** The transformation to ASCII keeps a text unreadable: the points stay,
    and a cut leaves a question mark. *)
Lemma points_transform (s : str) :
  (Nat.min 2 (points s) <= points (transform_decimal_and_space s))%nat.
Proof.
  induction s as [|c s IH]; [simpl; lia|].
  cbn [transform_decimal_and_space]. rewrite points_cons.
  destruct (c <? 127) eqn:Hc.
  - rewrite points_cons. lia.
  - rewrite (weight_beyond_ascii c Hc). destruct (isspace c).
    + rewrite points_cons. change (point_weight (ch " ")) with 0%nat. lia.
    + destruct (to_decimal c) as [d|] eqn:Hd.
      * rewrite points_cons. apply to_decimal_digit in Hd.
        assert (Hw : point_weight (ch "0" + d) = 0%nat).
        { apply is_digit_weightless. unfold is_digit.
          change (ch "0") with 48. change (ch "9") with 57.
          apply andb_true_iff. split; apply N.leb_le; lia. }
        rewrite Hw. lia.
      * change (points [ch "?"]) with 2%nat. lia.
Qed.

Lemma points_drop_underscores (s u : str) (prev : N) :
  drop_underscores prev s = Some u -> points u = points s.
Proof.
  revert prev u. induction s as [|c s IH]; intros prev u;
    cbn [drop_underscores].
  - destruct (prev =? ch "_"); [discriminate|]. now intros [= <-].
  - destruct (N.eqb_spec c (ch "_")) as [->|_].
    + destruct (is_digit prev); [|discriminate]. intros H.
      rewrite (IH _ _ H). reflexivity.
    + destruct ((prev =? ch "_") && negb (is_digit c)); [discriminate|].
      destruct (drop_underscores c s) as [u'|] eqn:E; [|discriminate].
      intros [= <-]. rewrite !points_cons, (IH _ _ E). reflexivity.
Qed.

Lemma span_digits_spec (s ds rest : str) :
  span_digits s = (ds, rest) -> s = ds ++ rest /\ points ds = 0%nat.
Proof.
  revert ds rest. induction s as [|c s IH]; intros ds rest;
    cbn [span_digits].
  - now intros [= <- <-].
  - destruct (is_digit c) eqn:Hc.
    + destruct (span_digits s) as [ds' rest'] eqn:E. intros [= <- <-].
      destruct (IH _ _ eq_refl) as [-> Hp]. split; [reflexivity|].
      rewrite points_cons, Hp, (is_digit_weightless c Hc). reflexivity.
    + now intros [= <- <-].
Qed.

Lemma parse_sign_points (s r : str) (neg : bool) :
  parse_sign s = (neg, r) -> points s = points r.
Proof.
  destruct s as [|c s]; cbn [parse_sign]; [now intros [= _ <-]|].
  destruct (N.eqb_spec c (ch "-")) as [->|_]; [now intros [= _ <-]|].
  destruct (N.eqb_spec c (ch "+")) as [->|_]; now intros [= _ <-].
Qed.

Lemma parse_exponent_points (s : str) (e : Z) :
  parse_exponent s = Some e -> points s = 0%nat.
Proof.
  destruct s as [|c s]; [reflexivity|]. cbn [parse_exponent].
  destruct ((c =? ch "e") || (c =? ch "E")) eqn:Hc; [|discriminate].
  destruct (parse_sign s) as [neg r1] eqn:Hsign.
  destruct (span_digits r1) as [ds rest] eqn:Hspan.
  destruct ds as [|d ds]; [discriminate|].
  destruct rest; [|discriminate]. intros _.
  apply parse_sign_points in Hsign. apply span_digits_spec in Hspan.
  destruct Hspan as [-> Hp]. rewrite app_nil_r in Hsign.
  rewrite points_cons, Hsign, Hp.
  apply orb_true_iff in Hc.
  destruct Hc as [Hc | Hc]; apply N.eqb_eq in Hc; now subst c.
Qed.

Lemma parse_decimal_points (s : str) (r : N * Z) :
  parse_decimal s = Some r -> (points s <= 1)%nat.
Proof.
  unfold parse_decimal.
  destruct (span_digits s) as [ip r1] eqn:Hip.
  apply span_digits_spec in Hip. destruct Hip as [-> Hpi].
  rewrite points_app, Hpi.
  destruct r1 as [|c r1].
  - intros _. change (points []) with 0%nat. lia.
  - destruct (N.eqb_spec c (ch ".")) as [->|Hc].
    + destruct (span_digits r1) as [fp r2] eqn:Hfp.
      apply span_digits_spec in Hfp. destruct Hfp as [-> Hpf].
      destruct (ip ++ fp); [discriminate|].
      destruct (parse_exponent r2) as [e|] eqn:He; [|discriminate].
      intros _. rewrite points_cons, points_app, Hpf,
        (parse_exponent_points _ _ He).
      reflexivity.
    + destruct (ip ++ []); [discriminate|].
      destruct (parse_exponent (c :: r1)) as [e|] eqn:He; [|discriminate].
      intros _. rewrite (parse_exponent_points _ _ He). lia.
Qed.

Lemma lower_ascii_char_weight (c : N) :
  point_weight (lower_ascii_char c) = point_weight c.
Proof.
  unfold lower_ascii_char.
  destruct ((0x41 <=? c) && (c <=? 0x5A)) eqn:H; [|reflexivity].
  apply andb_true_iff in H. destruct H as [H1 H2].
  apply N.leb_le in H1. apply N.leb_le in H2. unfold point_weight.
  change (ch ".") with 46. change (ch "?") with 63.
  destruct (N.eqb_spec (c + 32) 46); [lia|].
  destruct (N.eqb_spec (c + 32) 63); [lia|].
  destruct (N.eqb_spec c 46); [lia|].
  destruct (N.eqb_spec c 63); [lia|reflexivity].
Qed.

Lemma points_lower_ascii (s : str) : points (lower_ascii s) = points s.
Proof.
  induction s as [|c s IH]; [reflexivity|].
  simpl lower_ascii. now rewrite !points_cons, IH, lower_ascii_char_weight.
Qed.

Lemma parse_float_points (s : str) (f : float) :
  parse_float s = Some f -> (points s <= 1)%nat.
Proof.
  unfold parse_float. destruct (parse_sign s) as [neg r] eqn:Hsign.
  rewrite (parse_sign_points _ _ _ Hsign).
  destruct (str_eqb (lower_ascii r) (py "inf")
            || str_eqb (lower_ascii r) (py "infinity")) eqn:Hinf.
  { intros _. rewrite <- points_lower_ascii.
    apply orb_true_iff in Hinf.
    destruct Hinf as [H | H]; apply str_eqb_eq in H; rewrite H;
      vm_compute; lia. }
  destruct (str_eqb (lower_ascii r) (py "nan")) eqn:Hnan.
  { intros _. rewrite <- points_lower_ascii.
    apply str_eqb_eq in Hnan. rewrite Hnan. vm_compute. lia. }
  destruct (parse_decimal r) as [[m e]|] eqn:Hd; [|discriminate].
  intros _. exact (parse_decimal_points _ _ Hd).
Qed.

(** A text with two points, or with a question mark, is not a number. *)
Lemma float_of_str_points (s : str) :
  (2 <= points s)%nat -> float_of_str s = Raise ValueError.
Proof.
  intros H. unfold float_of_str.
  destruct (drop_underscores 0 _) as [u|] eqn:Hu; [|reflexivity].
  destruct (parse_float u) as [f|] eqn:Hf; [|reflexivity].
  apply parse_float_points in Hf. apply points_drop_underscores in Hu.
  rewrite Hu, points_rstrip, points_lstrip in Hf
    by exact c_isspace_weightless.
  pose proof (points_transform s). lia.
Qed.

(** ** Cleaning a cell *)

Lemma count_lstrip (sp : N -> bool) (c : N) (s : str) :
  sp c = false -> count c (lstrip_by sp s) = count c s.
Proof.
  intros Hc. induction s as [|x s IH]; [reflexivity|].
  cbn [lstrip_by]. destruct (sp x) eqn:Hx; [|reflexivity].
  rewrite IH. simpl. destruct (N.eq_dec x c) as [->|_]; congruence.
Qed.

Lemma count_rstrip (sp : N -> bool) (c : N) (s : str) :
  sp c = false -> count c (rstrip_by sp s) = count c s.
Proof.
  intros Hc. unfold rstrip_by.
  now rewrite count_occ_rev, count_lstrip, count_occ_rev.
Qed.

Lemma count_filter (f : N -> bool) (c : N) (s : str) :
  f c = true -> count c (filter f s) = count c s.
Proof.
  intros Hc. induction s as [|x s IH]; [reflexivity|].
  simpl. destruct (N.eq_dec x c) as [->|Hx].
  - rewrite Hc. simpl. destruct (N.eq_dec c c); congruence.
  - destruct (f x); [simpl; destruct (N.eq_dec x c); congruence | exact IH].
Qed.

Lemma points_replace_comma (s : str) :
  (count (ch ",") s <= points (replace (ch ",") (ch ".") s))%nat.
Proof.
  induction s as [|x s IH]; [cbn; lia|].
  change (replace (ch ",") (ch ".") (x :: s))
    with ((if x =? ch "," then ch "." else x)
            :: replace (ch ",") (ch ".") s).
  rewrite points_cons. cbn [count_occ].
  destruct (N.eq_dec x (ch ",")) as [->|Hx].
  - rewrite N.eqb_refl. change (point_weight (ch ".")) with 1%nat. lia.
  - lia.
Qed.

(** The commas of a cell all reach [float], as points. *)
Lemma cleaned_text_points (s : str) :
  (count (ch ",") s <= points (cleaned_text s))%nat.
Proof.
  unfold cleaned_text, strip.
  etransitivity; [|apply points_replace_comma].
  unfold re_sub_class.
  rewrite count_filter, count_rstrip, count_lstrip by reflexivity.
  reflexivity.
Qed.

Lemma clean_numeric_value_str (s : str) :
  s <> [] ->
  clean_numeric_value (VStr s) =
  match float_of_str (cleaned_text s) with
  | Raise ValueError => Ok 0%float
  | r => r
  end.
Proof. destruct s; [congruence | reflexivity]. Qed.

(** C10: a text with two commas or more, such as 1,234,567, is cleaned to
    0.0: every comma becomes a point, and [float] rejects a text with more
    than one point. *)
Theorem clean_numeric_value_two_commas (s : str) :
  (2 <= count (ch ",") s)%nat ->
  float_of_str (cleaned_text s) = Raise ValueError
  /\ clean_numeric_value (VStr s) = Ok 0%float
  /\ cleaned_text (py "1,234,567") = py "1.234.567".
Proof.
  intros H.
  assert (Hf : float_of_str (cleaned_text s) = Raise ValueError).
  { apply float_of_str_points. pose proof (cleaned_text_points s). lia. }
  split; [exact Hf|]. split; [|reflexivity].
  rewrite clean_numeric_value_str, Hf; [reflexivity|].
  intros ->. simpl in H. lia.
Qed.

Lemma clean_numeric_value_two_commas_witness :
  clean_numeric_value (VStr (py "1,234,567")) = Ok 0%float.
Proof.
  apply (clean_numeric_value_two_commas (py "1,234,567")).
  vm_compute. lia.
Defined.

(** The examples of the specification that the code meets: a decimal
    comma, a text that is not a number, blanks, and the numeric types. *)
Lemma clean_numeric_value_examples :
  clean_numeric_value (VStr (py "1234,56")) = Ok 0x1.34a3d70a3d70ap+10%float
  /\ clean_numeric_value (VStr (py "abc")) = Ok 0%float
  /\ clean_numeric_value (VStr (py " 1 200 ")) = Ok 1200%float
  /\ clean_numeric_value (VStr (py "1,234")) = Ok 0x1.3be76c8b43958p+0%float
  /\ clean_numeric_value (VInt 42) = Ok 42%float
  /\ clean_numeric_value (VFloat 2.5) = Ok 2.5%float
  /\ clean_numeric_value (VFloat nan) = Ok 0%float
  /\ clean_numeric_value VNone = Ok 0%float
  /\ clean_numeric_value (VStr []) = Ok 0%float.
Proof. repeat split; vm_compute; reflexivity. Qed.

Lemma re_sub_class_spec (cls : list N) (s : str) (c : N) :
  In c (re_sub_class cls s) <-> In c s /\ ~ In c cls /\ isspace c = false.
Proof.
  unfold re_sub_class. rewrite filter_In, negb_true_iff, orb_false_iff.
  assert (Hcls : existsb (N.eqb c) cls = false <-> ~ In c cls).
  { rewrite <- not_true_iff_false, existsb_exists. split.
    - intros H Hin. apply H. exists c. now rewrite N.eqb_refl.
    - intros H [x [Hin Hx]]. apply N.eqb_eq in Hx. now subst x. }
  rewrite Hcls. tauto.
Qed.

(** C2: the normalizer removes the dollar sign and every white space, but
    not the euro, pound, yen and rupee signs: the class of the pattern
    holds other characters in their place.  The cell with the euro sign
    before 1200 is therefore not parsed and comes out as 0.0, while the
    dollar sign and a blank inside the number are dropped. *)
Theorem clean_numeric_value_currency :
  clean_numeric_value (VStr (euro :: py "1200")) = Ok 0%float
  /\ cleaned_text (euro :: py "1200") = euro :: py "1200"
  /\ float_of_str (euro :: py "1200") = Raise ValueError
  /\ re_sub_class symbol_class [ch "$"; euro; pound; yen; rupee; ch " "]
     = [euro; pound; yen; rupee]
  /\ (forall s c, In c (re_sub_class symbol_class s) ->
                  c <> ch "$" /\ isspace c = false)
  /\ clean_numeric_value (VStr (py "$1 200")) = Ok 1200%float.
Proof.
  repeat split; try (vm_compute; reflexivity).
  - intros ->. apply re_sub_class_spec in H. destruct H as [_ [H _]].
    apply H. vm_compute. tauto.
  - apply re_sub_class_spec in H. tauto.
Qed.

(** ** Comparisons of floats with zero *)

Lemma Prim2SF_zero : Prim2SF 0%float = S754_zero false.
Proof. reflexivity. Qed.

Lemma ltb_zero_eqb (x : float) :
  (0 <? x)%float = true -> (x =? 0)%float = false.
Proof.
  rewrite ltb_spec, eqb_spec, Prim2SF_zero. unfold SFltb, SFeqb.
  destruct (Prim2SF x) as [s|s| |s m e]; simpl; try discriminate;
    destruct s; simpl; intros H; (discriminate || reflexivity).
Qed.

Lemma leb_zero_ltb (x : float) :
  (x <=? 0)%float = true -> (0 <? x)%float = false.
Proof.
  rewrite ltb_spec, leb_spec, Prim2SF_zero. unfold SFltb, SFleb.
  destruct (Prim2SF x) as [s|s| |s m e]; simpl; try discriminate;
    try reflexivity; destruct s; simpl; intros H;
    (discriminate || reflexivity).
Qed.

Lemma eqb_zero_inv (z : float) :
  (z =? 0)%float = true -> exists s, Prim2SF z = S754_zero s.
Proof.
  rewrite eqb_spec, Prim2SF_zero. unfold SFeqb.
  destruct (Prim2SF z) as [s|s| |s m e]; simpl; try discriminate;
    try (destruct s; discriminate).
  intros _. now exists s.
Qed.

(** ** The formulas of [calculate_kpis] *)

Lemma get_column_sum_ext (df : DataFrame) (dc dc' : dict) (key : str) :
  dict_get dc' key = dict_get dc key ->
  get_column_sum df dc' key = get_column_sum df dc key.
Proof. unfold get_column_sum. now intros ->. Qed.

Lemma get_column_sum_absent (df : DataFrame) (dc : dict) (key : str) :
  dict_get dc key = None -> get_column_sum df dc key = Ok 0%float.
Proof. unfold get_column_sum. now intros ->. Qed.

(** One step of [calculate_kpis] in a hypothesis that says it returned:
    the next column sum returned as well, the next test went one way or
    the other, and the division had a divisor other than zero. *)
Ltac kpi_step H :=
  cbn [bind] in H;
  lazymatch type of H with
  | bind (get_column_sum ?df ?dc ?c) _ = Ok _ =>
      destruct (get_column_sum df dc c) eqn:?; [|discriminate H]
  | bind (bind (get_column_sum ?df ?dc ?c) _) _ = Ok _ =>
      destruct (get_column_sum df dc c) eqn:?; [|discriminate H]
  | bind (if (0 <? ?x)%float then _ else _) _ = Ok _ =>
      destruct (0 <? x)%float eqn:?
  | bind (bind (truediv _ ?b) _) _ = Ok _ =>
      unfold truediv in H; destruct (b =? 0)%float; [discriminate H|]
  end.

(** What a normal return of [calculate_kpis] says of the column sums. *)
Lemma calculate_kpis_inv (df : DataFrame) (dc : dict) (k : kpis) :
  calculate_kpis df dc = Ok k ->
  exists rop am net cf inv,
    get_column_sum df dc (py "revenus") = Ok (revenus_totaux k)
    /\ get_column_sum df dc (py "resultat_operationnel") = Ok rop
    /\ get_column_sum df dc (py "amortissements") = Ok am
    /\ get_column_sum df dc (py "resultat_net") = Ok net
    /\ get_column_sum df dc (py "cash_flow") = Ok cf
    /\ get_column_sum df dc (py "investissements") = Ok inv
    /\ (if (0 <? rop)%float then ebitda k = (rop + am)%float
        else exists charges,
            get_column_sum df dc (py "charges") = Ok charges
            /\ ebitda k = (revenus_totaux k - charges)%float)
    /\ (if (0 <? net)%float then resultat_net k = net
        else exists charges impots,
            get_column_sum df dc (py "charges") = Ok charges
            /\ get_column_sum df dc (py "impots") = Ok impots
            /\ resultat_net k = (revenus_totaux k - charges - impots)%float)
    /\ free_cash_flow k =
       (if (0 <? cf)%float then (cf - inv)%float
        else (resultat_net k - inv)%float)
    /\ marge_nette k =
       (if (0 <? revenus_totaux k)%float
        then (resultat_net k / revenus_totaux k * 100)%float
        else 0%float).
Proof.
  unfold calculate_kpis. intros H.
  repeat kpi_step H.
  all: injection H as <-; cbn [revenus_totaux ebitda resultat_net
                                 free_cash_flow marge_nette].
  all: do 5 eexists; repeat (split; [reflexivity|]).
  all: repeat match goal with
              | E : (0 <? _)%float = _ |- _ => rewrite E; clear E
              end.
  all: repeat split; eauto.
Qed.

(** The category ebitda is not among the keys [calculate_kpis] reads. *)
Lemma calculate_kpis_ext (df : DataFrame) (dc dc' : dict) :
  (forall key, key <> py "ebitda" -> dict_get dc' key = dict_get dc key) ->
  calculate_kpis df dc' = calculate_kpis df dc.
Proof.
  intros Hagree. unfold calculate_kpis.
  rewrite (get_column_sum_ext df dc dc' (py "revenus")),
    (get_column_sum_ext df dc dc' (py "resultat_operationnel")),
    (get_column_sum_ext df dc dc' (py "amortissements")),
    (get_column_sum_ext df dc dc' (py "charges")),
    (get_column_sum_ext df dc dc' (py "resultat_net")),
    (get_column_sum_ext df dc dc' (py "impots")),
    (get_column_sum_ext df dc dc' (py "cash_flow")),
    (get_column_sum_ext df dc dc' (py "investissements"))
    by (apply Hagree; discriminate).
  reflexivity.
Qed.

(** C3: when [calculate_kpis] returns, ebitda is the sum of the category
    resultat_operationnel plus that of amortissements when the former is
    positive, and revenus_totaux minus the sum of charges otherwise.  The
    category ebitda of the mapping is never read: changing or removing it
    changes nothing, and a mapping that holds it alone gives all sums, and
    ebitda, zero. *)
Theorem calculate_kpis_ebitda (df : DataFrame) (dc : dict) (k : kpis) :
  calculate_kpis df dc = Ok k ->
  (exists rop am,
      get_column_sum df dc (py "resultat_operationnel") = Ok rop
      /\ get_column_sum df dc (py "amortissements") = Ok am
      /\ if (0 <? rop)%float then ebitda k = (rop + am)%float
         else exists charges,
             get_column_sum df dc (py "charges") = Ok charges
             /\ ebitda k = (revenus_totaux k - charges)%float)
  /\ get_column_sum df dc (py "revenus") = Ok (revenus_totaux k)
  /\ (forall dc',
         (forall key, key <> py "ebitda" ->
                      dict_get dc' key = dict_get dc key) ->
         calculate_kpis df dc' = Ok k)
  /\ (forall header,
         calculate_kpis df [(py "ebitda", header)] =
         Ok {| revenus_totaux := 0; ebitda := 0 - 0; resultat_net := 0 - 0 - 0;
               free_cash_flow := 0 - 0 - 0 - 0; marge_nette := 0 |}).
Proof.
  intros Hk.
  destruct (calculate_kpis_inv df dc k Hk)
    as (rop & am & net & cf & inv & Hrev & Hrop & Ham & _ & _ & _ & He & _).
  split; [now exists rop, am|]. split; [exact Hrev|]. split.
  - intros dc' Hagree. now rewrite (calculate_kpis_ext df dc dc' Hagree).
  - intros header. reflexivity.
Qed.

Lemma calculate_kpis_ebitda_witness :
  get_column_sum (scenario sample_dates sample_ebitda)
                 (detect_columns lower_ascii scenario_headers)
                 (py "revenus") = Ok 585000%float.
Proof.
  apply (calculate_kpis_ebitda
           (scenario sample_dates sample_ebitda)
           (detect_columns lower_ascii scenario_headers)
           {| revenus_totaux := 585000;
              ebitda := 268000;
              resultat_net := 151000;
              free_cash_flow := 139000;
              marge_nette := (151000 / 585000 * 100)%float |}).
  vm_compute. reflexivity.
Defined.

(** C5: when [calculate_kpis] returns, resultat_net is the sum of the
    category resultat_net when that sum is positive, and revenus_totaux
    minus the sums of charges and of impots otherwise; a sum that is zero
    or negative is not positive, and an absent category sums to zero, so
    both take the second formula. *)
Theorem calculate_kpis_resultat_net (df : DataFrame) (dc : dict) (k : kpis) :
  calculate_kpis df dc = Ok k ->
  exists net,
    get_column_sum df dc (py "resultat_net") = Ok net
    /\ (if (0 <? net)%float then resultat_net k = net
        else exists charges impots,
            get_column_sum df dc (py "charges") = Ok charges
            /\ get_column_sum df dc (py "impots") = Ok impots
            /\ resultat_net k = (revenus_totaux k - charges - impots)%float)
    /\ ((net <=? 0)%float = true -> (0 <? net)%float = false)
    /\ (dict_get dc (py "resultat_net") = None ->
        net = 0%float /\ (0 <? net)%float = false).
Proof.
  intros Hk.
  destruct (calculate_kpis_inv df dc k Hk)
    as (rop & am & net & cf & inv & _ & _ & _ & Hnet & _ & _ & _ & Hn & _).
  exists net. split; [exact Hnet|]. split; [exact Hn|].
  split; [apply leb_zero_ltb|].
  intros Habs. rewrite (get_column_sum_absent _ _ _ Habs) in Hnet.
  injection Hnet as <-. now split.
Qed.

Lemma calculate_kpis_resultat_net_witness :
  exists net,
    get_column_sum loss_frame
                   (detect_columns lower_ascii (columns loss_frame))
                   (py "resultat_net") = Ok net
    /\ (net <=? 0)%float = true.
Proof.
  destruct (calculate_kpis_resultat_net
              loss_frame (detect_columns lower_ascii (columns loss_frame))
              {| revenus_totaux := 10; ebitda := 7; resultat_net := 7;
                 free_cash_flow := 5; marge_nette := 70 |})
    as [net [Hnet _]].
  - vm_compute. reflexivity.
  - exists net. split; [exact Hnet|].
    vm_compute in Hnet. injection Hnet as <-. reflexivity.
Defined.

(** C6: when [calculate_kpis] returns, free_cash_flow is the sum of
    cash_flow minus that of investissements when the former is positive,
    and otherwise the resultat_net of the result, the value after its own
    fallback, minus the sum of investissements.  On a frame with a net
    loss of 5 and no cash-flow column, resultat_net is 10 - 3 = 7 and
    free_cash_flow 7 - 2 = 5, not -5 - 2. *)
Theorem calculate_kpis_free_cash_flow (df : DataFrame) (dc : dict) (k : kpis) :
  calculate_kpis df dc = Ok k ->
  (exists cf inv,
      get_column_sum df dc (py "cash_flow") = Ok cf
      /\ get_column_sum df dc (py "investissements") = Ok inv
      /\ free_cash_flow k =
         if (0 <? cf)%float then (cf - inv)%float
         else (resultat_net k - inv)%float)
  /\ get_column_sum loss_frame
                    (detect_columns lower_ascii (columns loss_frame))
                    (py "resultat_net") = Ok (-5)%float
  /\ calculate_kpis loss_frame
                    (detect_columns lower_ascii (columns loss_frame)) =
     Ok {| revenus_totaux := 10; ebitda := 7; resultat_net := 7;
           free_cash_flow := 5; marge_nette := 70 |}.
Proof.
  intros Hk.
  destruct (calculate_kpis_inv df dc k Hk)
    as (rop & am & net & cf & inv
        & _ & _ & _ & _ & Hcf & Hinv & _ & _ & Hf & _).
  split; [now exists cf, inv|]. split; vm_compute; reflexivity.
Qed.

Lemma calculate_kpis_free_cash_flow_witness :
  exists cf inv,
    get_column_sum (scenario sample_dates sample_ebitda)
                   (detect_columns lower_ascii scenario_headers)
                   (py "cash_flow") = Ok cf
    /\ get_column_sum (scenario sample_dates sample_ebitda)
                      (detect_columns lower_ascii scenario_headers)
                      (py "investissements") = Ok inv
    /\ 139000%float =
       if (0 <? cf)%float then (cf - inv)%float
       else (151000 - inv)%float.
Proof.
  apply (calculate_kpis_free_cash_flow
           (scenario sample_dates sample_ebitda)
           (detect_columns lower_ascii scenario_headers)
           {| revenus_totaux := 585000;
              ebitda := 268000;
              resultat_net := 151000;
              free_cash_flow := 139000;
              marge_nette := (151000 / 585000 * 100)%float |}).
  vm_compute. reflexivity.
Defined.

(** ** Rounding to binary64 *)

Section Rounding.

Local Open Scope Z_scope.

Lemma digits2_pos_size (p : positive) : digits2_pos p = Pos.size p.
Proof. induction p as [p IH|p IH|]; simpl; now rewrite ?IH. Qed.

Lemma Zdigits2_log2 (z : Z) : 0 < z -> Zdigits2 z = Z.log2 z + 1.
Proof.
  destruct z as [|p|p]; try lia. intros _. unfold Zdigits2.
  destruct p as [p|p|]; simpl; rewrite ?digits2_pos_size; lia.
Qed.

Lemma shr_m_of_loc (m : Z) (l : location) : shr_m (shr_record_of_loc m l) = m.
Proof. destruct l as [|[| |]]; reflexivity. Qed.

Lemma shr_m_shr_1 (mrs : shr_record) :
  0 <= shr_m mrs -> shr_m (shr_1 mrs) = Z.div2 (shr_m mrs).
Proof.
  destruct mrs as [m r s]. simpl.
  destruct m as [|[p|p|]|p]; intros H; try reflexivity; lia.
Qed.

Lemma shr_m_iter (p : positive) (mrs : shr_record) :
  0 <= shr_m mrs ->
  shr_m (iter_pos shr_1 p mrs) = Z.shiftr (shr_m mrs) (Zpos p).
Proof.
  revert mrs. induction p as [p IH|p IH|]; intros mrs H; cbn [iter_pos].
  - assert (H1 : 0 <= shr_m (shr_1 mrs)).
    { rewrite shr_m_shr_1, Z.div2_spec by assumption.
      now apply Z.shiftr_nonneg. }
    assert (H2 : 0 <= shr_m (iter_pos shr_1 p (shr_1 mrs))).
    { rewrite IH by assumption. now apply Z.shiftr_nonneg. }
    rewrite IH, IH, shr_m_shr_1, Z.div2_spec, !Z.shiftr_shiftr by lia.
    f_equal. lia.
  - assert (H1 : 0 <= shr_m (iter_pos shr_1 p mrs)).
    { rewrite IH by assumption. now apply Z.shiftr_nonneg. }
    rewrite IH, IH, Z.shiftr_shiftr by lia. f_equal. lia.
  - rewrite shr_m_shr_1, Z.div2_spec by assumption. reflexivity.
Qed.

(** The shift that brings a positive mantissa to its canonical exponent
    keeps it positive and keeps its magnitude. *)
Lemma shr_fexp_spec (m e : Z) (l : location) (mrs' : shr_record) (e' : Z) :
  shr_fexp prec emax m e l = (mrs', e') ->
  0 < m -> SpecFloat.emin prec emax <= e ->
  e' = Z.max e (fexp prec emax (Zdigits2 m + e))
  /\ 0 < shr_m mrs'
  /\ Zdigits2 (shr_m mrs') + e' = Zdigits2 m + e.
Proof.
  intros Hshr Hm He. unfold shr_fexp, shr in Hshr.
  rewrite (Zdigits2_log2 m Hm) in *.
  pose proof (Z.log2_nonneg m) as Hlog.
  unfold fexp, SpecFloat.emin, prec, emax in *.
  destruct (Z.max (Z.log2 m + 1 + e - 53) (3 - 1024 - 53) - e) as [|p|p] eqn:Hn;
    injection Hshr as <- <-; rewrite ?shr_m_of_loc.
  - rewrite (Zdigits2_log2 m Hm). lia.
  - rewrite shr_m_iter by (rewrite shr_m_of_loc; lia). rewrite shr_m_of_loc.
    assert (Hp : Zpos p = Z.log2 m + 1 - 53) by lia.
    assert (Hpow : 2 ^ Zpos p <= m) by (apply Z.log2_le_pow2; lia).
    assert (Hpos : 0 < Z.shiftr m (Zpos p)).
    { rewrite Z.shiftr_div_pow2 by lia. apply Z.div_str_pos. lia. }
    rewrite (Zdigits2_log2 _ Hpos), Z.log2_shiftr by assumption. lia.
  - rewrite (Zdigits2_log2 m Hm). lia.
Qed.

Lemma round_nearest_even_bounds (m : Z) (l : location) :
  m <= round_nearest_even m l <= m + 1.
Proof.
  unfold round_nearest_even. destruct l as [|[| |]]; try lia.
  destruct (Z.even m); lia.
Qed.

(** Rounding a positive mantissa gives a finite number with the sign
    asked for, or the infinity of that sign when the exponent it ends with
    is beyond the largest one. *)
Lemma binary_round_aux_spec (sx : bool) (m e : Z) (l : location) :
  0 < m -> SpecFloat.emin prec emax <= e ->
  exists m'' e'',
    e'' <= Z.max e (fexp prec emax (Zdigits2 m + e + 1))
    /\ binary_round_aux prec emax sx m e l =
       if e'' <=? emax - prec then S754_finite sx m'' e''
       else S754_infinity sx.
Proof.
  intros Hm He. unfold binary_round_aux.
  destruct (shr_fexp prec emax m e l) as [mrs' e'] eqn:E1.
  destruct (shr_fexp_spec _ _ _ _ _ E1 Hm He) as (He' & Hm' & Hd').
  pose proof (round_nearest_even_bounds (shr_m mrs') (loc_of_shr_record mrs'))
    as Hrne.
  set (m1 := round_nearest_even (shr_m mrs') (loc_of_shr_record mrs')) in *.
  assert (Hm1 : 0 < m1) by lia.
  assert (Hd1 : Zdigits2 m1 <= Zdigits2 (shr_m mrs') + 1).
  { rewrite !Zdigits2_log2 by assumption.
    pose proof (Z.log2_le_mono m1 (Z.succ (shr_m mrs'))).
    pose proof (Z.log2_succ_le (shr_m mrs')). lia. }
  destruct (shr_fexp prec emax m1 e' loc_Exact) as [mrs'' e''] eqn:E2.
  assert (He1 : SpecFloat.emin prec emax <= e') by lia.
  destruct (shr_fexp_spec _ _ _ _ _ E2 Hm1 He1) as (He'' & Hm'' & _).
  destruct (shr_m mrs'') as [|p|p]; try lia.
  exists p, e''. split; [|reflexivity].
  unfold fexp, SpecFloat.emin, prec, emax in *. lia.
Qed.

Lemma Zpos_iter_xO (mx d : positive) :
  Zpos (Pos.iter xO mx d) = Zpos mx * 2 ^ Zpos d.
Proof.
  induction d as [|d IH] using Pos.peano_ind.
  - simpl. lia.
  - rewrite Pos.iter_succ, Pos2Z.inj_xO, IH, Pos2Z.inj_succ, Z.pow_succ_r
      by lia.
    lia.
Qed.

Lemma shl_align_spec (mx : positive) (ex ex' : Z) (mz : positive) (ez : Z) :
  shl_align mx ex ex' = (mz, ez) ->
  ez = Z.min ex ex'
  /\ Zdigits2 (Zpos mz) + ez = Zdigits2 (Zpos mx) + ex.
Proof.
  unfold shl_align. destruct (ex' - ex) as [|d|d] eqn:Hd;
    intros [= <- <-]; try (split; lia).
  split; [lia|].
  rewrite !Zdigits2_log2, Zpos_iter_xO, Z.log2_mul_pow2 by lia. lia.
Qed.

(** Rounding of a positive integer scaled by a power of two. *)
Lemma binary_round_spec (sx : bool) (mx : positive) (ex : Z) :
  SpecFloat.emin prec emax <= ex ->
  exists m'' e'',
    e'' <= Z.max ex (fexp prec emax (Zdigits2 (Zpos mx) + ex + 1))
    /\ binary_round prec emax sx mx ex =
       if e'' <=? emax - prec then S754_finite sx m'' e''
       else S754_infinity sx.
Proof.
  intros He. unfold binary_round.
  destruct (shl_align mx ex _) as [mz ez] eqn:E.
  destruct (shl_align_spec _ _ _ _ _ E) as [Hez Hd].
  assert (Hez' : SpecFloat.emin prec emax <= ez).
  { unfold fexp, SpecFloat.emin, prec, emax in *. lia. }
  destruct (binary_round_aux_spec sx (Zpos mz) ez loc_Exact)
    as (m'' & e'' & Hb & Hr);
    [lia | assumption |].
  exists m'', e''. split; [|exact Hr].
  rewrite Hd in Hb. lia.
Qed.

(** The sum of two floats is the negative zero only when both are. *)
Lemma SF64add_neg_zero (x y : spec_float) :
  valid_binary x = true -> valid_binary y = true ->
  SF64add x y = S754_zero true ->
  x = S754_zero true /\ y = S754_zero true.
Proof.
  intros Hx Hy. unfold SF64add, SFadd.
  destruct x as [sx|sx| |sx mx ex], y as [sy|sy| |sy my ey].
  16: { unfold binary_normalize.
        assert (He : SpecFloat.emin prec emax <= Z.min ex ey).
        { simpl in Hx, Hy. unfold bounded, canonical_mantissa in Hx, Hy.
          apply andb_true_iff in Hx, Hy.
          destruct Hx as [Hx _], Hy as [Hy _].
          apply Z.eqb_eq in Hx, Hy.
          unfold fexp, SpecFloat.emin, prec, emax in *. lia. }
        destruct (_ + _) as [|p|p]; [discriminate| |].
        - destruct (binary_round_spec false p _ He) as (m'' & e'' & _ & ->).
          destruct (e'' <=? emax - prec); discriminate.
        - destruct (binary_round_spec true p _ He) as (m'' & e'' & _ & ->).
          destruct (e'' <=? emax - prec); discriminate. }
  all: repeat match goal with b : bool |- _ => destruct b end.
  all: intros H; (discriminate H || now split).
Qed.

(** An integer below [2 ^ 1023] in magnitude rounds to a finite float. *)
Lemma binary_normalize_int (z : Z) :
  Z.abs z < 2 ^ 1023 ->
  match binary_normalize prec emax z 0 false with
  | S754_infinity _ => False
  | _ => True
  end.
Proof.
  intros Hz. unfold binary_normalize.
  assert (Hd : forall p, Zpos p < 2 ^ 1023 -> Zdigits2 (Zpos p) <= 1023).
  { intros p Hp. rewrite Zdigits2_log2 by lia.
    apply Z.log2_lt_pow2 in Hp; lia. }
  destruct z as [|p|p]; [exact I| |].
  - destruct (binary_round_spec false p 0) as (m'' & e'' & Hb & ->);
      [unfold SpecFloat.emin, prec, emax; lia|].
    specialize (Hd p ltac:(lia)).
    unfold fexp, SpecFloat.emin, prec, emax in *.
    destruct (Z.leb_spec e'' (1024 - 53)); [exact I | lia].
  - destruct (binary_round_spec true p 0) as (m'' & e'' & Hb & ->);
      [unfold SpecFloat.emin, prec, emax; lia|].
    specialize (Hd p ltac:(lia)).
    unfold fexp, SpecFloat.emin, prec, emax in *.
    destruct (Z.leb_spec e'' (1024 - 53)); [exact I | lia].
Qed.

End Rounding.

(** ** Sums of floats *)

Lemma add_zero_r (x z : float) :
  (z =? 0)%float = true ->
  Prim2SF x <> S754_zero true ->
  (x + z)%float = x.
Proof.
  intros Hz Hx. apply eqb_zero_inv in Hz. destruct Hz as [s Hz].
  apply Prim2SF_inj. rewrite add_spec, Hz. unfold SF64add, SFadd.
  destruct (Prim2SF x) as [sx|sx| |sx mx ex]; try reflexivity.
  destruct sx, s; try reflexivity. now elim Hx.
Qed.

Lemma add_not_neg_zero (a b : float) :
  Prim2SF a <> S754_zero true -> Prim2SF (a + b)%float <> S754_zero true.
Proof.
  intros Ha H. rewrite add_spec in H.
  apply SF64add_neg_zero in H; try apply Prim2SF_valid.
  destruct H as [H _]. contradiction.
Qed.

Lemma sum_from_not_neg_zero (cells : list value) (acc s : float) :
  Prim2SF acc <> S754_zero true ->
  sum_from acc cells = Ok s ->
  Prim2SF s <> S754_zero true.
Proof.
  revert acc. induction cells as [|v cells IH]; intros acc Hacc; cbn [sum_from].
  - now intros [= <-].
  - destruct (clean_numeric_value v) as [x|]; [|discriminate].
    cbn [bind]. apply IH. now apply add_not_neg_zero.
Qed.

Lemma sum_from_snoc (cells : list value) (acc : float) (v : value) :
  sum_from acc (cells ++ [v]) =
  (s <- sum_from acc cells ;;
   x <- clean_numeric_value v ;;
   Ok (s + x)%float).
Proof.
  revert acc. induction cells as [|c cells IH]; intros acc; cbn [sum_from app].
  - cbn [bind]. now destruct (clean_numeric_value v).
  - destruct (clean_numeric_value c) as [x|]; [|reflexivity].
    cbn [bind]. apply IH.
Qed.

(** A last cell that is cleaned to zero leaves the sum as it is. *)
Lemma sum_from_snoc_zero (cells : list value) (v : value) :
  cleans_to_zero v = true ->
  sum_from 0%float (cells ++ [v]) = sum_from 0%float cells.
Proof.
  unfold cleans_to_zero. intros Hv. rewrite sum_from_snoc.
  destruct (sum_from 0%float cells) as [s|] eqn:Hs; [|reflexivity].
  destruct (clean_numeric_value v) as [x|]; [|discriminate].
  cbn [bind]. f_equal. apply add_zero_r; [assumption|].
  apply (sum_from_not_neg_zero cells 0%float); [discriminate | assumption].
Qed.

(** ** One more row *)

Lemma columns_append_row (df : DataFrame) (row : list value) :
  List.length row = List.length df ->
  columns (append_row df row) = columns df.
Proof.
  unfold columns, append_row. revert row.
  induction df as [|[label cs] df IH]; intros [|c row] Hlen;
    try discriminate; [reflexivity|].
  cbn [combine map fst]. f_equal. apply IH. now injection Hlen.
Qed.

(** The columns of a label, before and after the row is appended. *)
Lemma filter_append_row (df : DataFrame) (row : list value) (name : str) :
  List.length row = List.length df ->
  exists sel : list ((str * list value) * value),
    (forall x, In x sel -> In x (combine df row) /\ fst (fst x) = name)
    /\ filter (fun c => str_eqb (fst c) name) df = map fst sel
    /\ filter (fun c => str_eqb (fst c) name) (append_row df row) =
       map (fun '((label, cs), c) => (label, cs ++ [c])) sel.
Proof.
  unfold append_row. revert row.
  induction df as [|[label cs] df IH]; intros [|c row] Hlen;
    try discriminate.
  - exists []. split; [intros x []|]. split; reflexivity.
  - injection Hlen as Hlen. destruct (IH row Hlen) as (sel & Hin & Hf & Hf').
    cbn [combine map filter fst]. destruct (str_eqb label name) eqn:E.
    + exists (((label, cs), c) :: sel). split; [|split].
      * intros x [<- | H].
        -- split; [now left | now apply str_eqb_eq].
        -- destruct (Hin x H). split; [now right | assumption].
      * cbn [map fst]. now rewrite Hf.
      * cbn [map]. now rewrite Hf'.
    + exists sel. split; [|split; assumption].
      intros x H. destruct (Hin x H). split; [now right | assumption].
Qed.

Lemma getitem_append_row (df : DataFrame) (row : list value) (name : str) :
  List.length row = List.length df ->
  (forall col c, In (col, c) (combine df row) -> fst col = name ->
                 cleans_to_zero c = true) ->
  sum_from 0%float (getitem (append_row df row) name) =
  sum_from 0%float (getitem df name).
Proof.
  intros Hlen Hzero.
  destruct (filter_append_row df row name Hlen) as (sel & Hin & Hf & Hf').
  unfold getitem. rewrite Hf, Hf'.
  destruct sel as [|[[label cs] c] [|[[label' cs'] c'] sel]]; [reflexivity | |].
  - cbn [map fst snd]. apply sum_from_snoc_zero.
    destruct (Hin ((label, cs), c) (or_introl eq_refl)) as [H1 H2].
    exact (Hzero _ _ H1 H2).
  - cbn [map fst snd]. f_equal. f_equal. f_equal.
    rewrite !map_map. apply map_ext. now intros [[l x] y].
Qed.

Lemma dict_get_value (d : dict) (k v : str) :
  dict_get d k = Some v -> In v (map snd d).
Proof.
  induction d as [|[k' v'] d IH]; cbn [dict_get]; [discriminate|].
  destruct (str_eqb k' k); [intros [= <-]; now left | right; auto].
Qed.

Lemma get_column_sum_append_row (df : DataFrame) (row : list value)
      (dc : dict) (key : str) :
  List.length row = List.length df ->
  (forall col c, In (col, c) (combine df row) -> In (fst col) (map snd dc) ->
                 cleans_to_zero c = true) ->
  get_column_sum (append_row df row) dc key = get_column_sum df dc key.
Proof.
  intros Hlen Hzero. unfold get_column_sum.
  destruct (dict_get dc key) as [name|] eqn:Hget; [|reflexivity].
  rewrite (columns_append_row df row Hlen).
  destruct (existsb _ _); [|reflexivity].
  apply getitem_append_row; [assumption|].
  intros col c Hin <-. apply (Hzero col c Hin).
  exact (dict_get_value _ _ _ Hget).
Qed.

(** [calculate_kpis] depends on its arguments through the column sums. *)
Lemma calculate_kpis_sums (df df' : DataFrame) (dc dc' : dict) :
  (forall key, key <> py "ebitda" ->
               get_column_sum df' dc' key = get_column_sum df dc key) ->
  calculate_kpis df' dc' = calculate_kpis df dc.
Proof.
  intros Hsums. unfold calculate_kpis.
  rewrite (Hsums (py "revenus")), (Hsums (py "resultat_operationnel")),
    (Hsums (py "amortissements")), (Hsums (py "charges")),
    (Hsums (py "resultat_net")), (Hsums (py "impots")),
    (Hsums (py "cash_flow")), (Hsums (py "investissements"))
    by discriminate.
  reflexivity.
Qed.

(** C8: appending a row whose cells in the columns of the mapping are
    all cleaned to zero (a zero, a blank, a missing value, a text that is
    not a number) changes neither the labels, nor what [detect_columns]
    finds, nor any column sum, nor the result of [calculate_kpis]. *)
Theorem calculate_kpis_append_zero_row
        (lower : str -> str) (df : DataFrame) (row : list value) (dc : dict) :
  List.length row = List.length df ->
  (forall col c, In (col, c) (combine df row) -> In (fst col) (map snd dc) ->
                 cleans_to_zero c = true) ->
  detect_columns lower (columns (append_row df row)) =
  detect_columns lower (columns df)
  /\ (forall key, get_column_sum (append_row df row) dc key =
                  get_column_sum df dc key)
  /\ calculate_kpis (append_row df row) dc = calculate_kpis df dc
  /\ forallb cleans_to_zero
             [VInt 0; VFloat 0; VFloat (-0); VStr []; VStr (py "  ");
              VNone; VFloat nan; VStr (py "abc"); VBool false] = true.
Proof.
  intros Hlen Hzero.
  split; [now rewrite columns_append_row|].
  split; [intros key; now apply get_column_sum_append_row|].
  split; [|vm_compute; reflexivity].
  apply calculate_kpis_sums. intros key _.
  now apply get_column_sum_append_row.
Qed.

Lemma calculate_kpis_append_zero_row_witness :
  calculate_kpis
    (append_row (scenario sample_dates sample_ebitda)
                [VStr (py "2024-06"); VInt 0; VStr []; VFloat nan; VNone;
                 VStr (py "n/a"); VFloat (-0)])
    (detect_columns lower_ascii scenario_headers) =
  calculate_kpis (scenario sample_dates sample_ebitda)
                 (detect_columns lower_ascii scenario_headers).
Proof.
  apply (calculate_kpis_append_zero_row
           lower_ascii (scenario sample_dates sample_ebitda)
           [VStr (py "2024-06"); VInt 0; VStr []; VFloat nan; VNone;
            VStr (py "n/a"); VFloat (-0)]
           (detect_columns lower_ascii scenario_headers)).
  - reflexivity.
  - intros col c Hin _. vm_compute in Hin.
    repeat (destruct Hin as [Heq | Hin];
            [injection Heq as <- <-; vm_compute; reflexivity|]).
    destruct Hin.
Defined.

(** ** Exceptions *)

Lemma float_of_str_cases (s : str) :
  (exists f, float_of_str s = Ok f) \/ float_of_str s = Raise ValueError.
Proof.
  unfold float_of_str. destruct (drop_underscores 0 _) as [u|]; [|now right].
  destruct (parse_float u) as [f|]; [left; now exists f | now right].
Qed.

Lemma float_of_int_in_range (z : Z) :
  (Z.abs z < 2 ^ 1023)%Z -> exists f, float_of_int z = Ok f.
Proof.
  intros Hz. unfold float_of_int.
  pose proof (binary_normalize_int z Hz) as H.
  destruct (binary_normalize prec emax z 0 false); eauto. destruct H.
Qed.

(** Only an [int] too large for a [float] makes [clean_numeric_value]
    raise. *)
Lemma clean_numeric_value_in_range (v : value) :
  int_in_range v = true -> exists f, clean_numeric_value v = Ok f.
Proof.
  destruct v as [|b|z|f|s]; intros Hv; unfold clean_numeric_value.
  - cbn. eauto.
  - cbn. eauto.
  - cbn [isna eq_empty is_None orb]. apply float_of_int_in_range.
    cbn [int_in_range] in Hv. now apply Z.ltb_lt.
  - cbn [isna eq_empty is_None]. rewrite !orb_false_r.
    destruct (is_nan f); eauto.
  - destruct s as [|c s]; [cbn; eauto|].
    cbn [isna eq_empty is_None orb].
    destruct (float_of_str_cases
                (replace (ch ",") (ch ".")
                         (re_sub_class symbol_class (strip (c :: s)))))
      as [[f ->] | ->]; eauto.
Qed.

Lemma sum_from_in_range (cells : list value) (acc : float) :
  Forall (fun v => int_in_range v = true) cells ->
  exists s, sum_from acc cells = Ok s.
Proof.
  intros H. revert acc. induction H as [|v cells Hv _ IH]; intros acc;
    cbn [sum_from]; [eauto|].
  destruct (clean_numeric_value_in_range v Hv) as [x ->]. cbn [bind].
  apply IH.
Qed.

Lemma getitem_in_range (df : DataFrame) (name : str) :
  Forall (fun v => int_in_range v = true) (cells df) ->
  Forall (fun v => int_in_range v = true) (getitem df name).
Proof.
  intros H. rewrite Forall_forall in H.
  assert (Hsel : forall c, In c (filter (fun c => str_eqb (fst c) name) df) ->
                           Forall (fun v => int_in_range v = true) (snd c)).
  { intros c Hc. apply filter_In in Hc. destruct Hc as [Hc _].
    apply Forall_forall. intros v Hv. apply H. unfold cells.
    apply in_flat_map. now exists c. }
  unfold getitem.
  destruct (filter _ df) as [|c [|c' sel]].
  - constructor.
  - apply Hsel. now left.
  - apply Forall_forall. intros v Hv. apply in_map_iff in Hv.
    destruct Hv as [x [<- _]]. reflexivity.
Qed.

Lemma get_column_sum_in_range (df : DataFrame) (dc : dict) (key : str) :
  Forall (fun v => int_in_range v = true) (cells df) ->
  exists s, get_column_sum df dc key = Ok s.
Proof.
  intros H. unfold get_column_sum.
  destruct (dict_get dc key) as [name|]; [|eauto].
  destruct (existsb _ _); [|eauto].
  apply sum_from_in_range. now apply getitem_in_range.
Qed.

Lemma calculate_kpis_in_range (df : DataFrame) (dc : dict) :
  Forall (fun v => int_in_range v = true) (cells df) ->
  exists k, calculate_kpis df dc = Ok k.
Proof.
  intros H. unfold calculate_kpis.
  destruct (get_column_sum_in_range df dc (py "revenus") H) as [rev ->].
  destruct (get_column_sum_in_range df dc (py "resultat_operationnel") H)
    as [rop ->].
  destruct (get_column_sum_in_range df dc (py "amortissements") H) as [am ->].
  destruct (get_column_sum_in_range df dc (py "charges") H) as [ch ->].
  destruct (get_column_sum_in_range df dc (py "resultat_net") H) as [net ->].
  destruct (get_column_sum_in_range df dc (py "impots") H) as [imp ->].
  destruct (get_column_sum_in_range df dc (py "cash_flow") H) as [cf ->].
  destruct (get_column_sum_in_range df dc (py "investissements") H)
    as [inv ->].
  cbn [bind]. destruct (0 <? rop)%float; cbn [bind];
    destruct (0 <? net)%float; cbn [bind];
    destruct (0 <? rev)%float eqn:Hrev; cbn [bind];
    unfold truediv; rewrite ?(ltb_zero_eqb rev Hrev); cbn [bind]; eauto.
Qed.

(** C7 (as amended): on a data frame whose [int] cells are below
    [2 ^ 1023] in magnitude, as all 64-bit integers are, [calculate_kpis]
    returns; a cell that holds a text is always cleaned without an
    exception, to 0.0 when [float] rejects the cleaned text; every cell
    but an [int] beyond that range is cleaned without an exception; the
    division of marge_nette runs only when revenus_totaux is positive,
    where it cannot fail, and marge_nette is 0.0 otherwise. *)
Theorem core_total_in_range (df : DataFrame) (dc : dict) (s : str) :
  Forall (fun v => int_in_range v = true) (cells df) ->
  (exists k,
      calculate_kpis df dc = Ok k
      /\ marge_nette k =
         if (0 <? revenus_totaux k)%float
         then (resultat_net k / revenus_totaux k * 100)%float
         else 0%float)
  /\ (exists f,
         clean_numeric_value (VStr s) = Ok f
         /\ (float_of_str (cleaned_text s) = Raise ValueError -> f = 0%float))
  /\ (forall v, int_in_range v = true -> exists f, clean_numeric_value v = Ok f)
  /\ (forall a b, (0 <? b)%float = true -> truediv a b = Ok (a / b)%float)
  /\ (forall z, (- 2 ^ 63 <= z < 2 ^ 64)%Z -> int_in_range (VInt z) = true).
Proof.
  intros H. split; [|split; [|split; [|split]]].
  - destruct (calculate_kpis_in_range df dc H) as [k Hk]. exists k.
    split; [exact Hk|].
    destruct (calculate_kpis_inv df dc k Hk)
      as (rop & am & net & cf & inv & _ & _ & _ & _ & _ & _ & _ & _ & _ & Hm).
    exact Hm.
  - destruct s as [|c s]; [exists 0%float; now split|].
    rewrite clean_numeric_value_str by discriminate.
    destruct (float_of_str_cases (cleaned_text (c :: s))) as [[f Hf] | Hf];
      rewrite Hf.
    + exists f. split; [reflexivity | discriminate].
    + exists 0%float. now split.
  - exact clean_numeric_value_in_range.
  - intros a b Hb. unfold truediv. now rewrite (ltb_zero_eqb b Hb).
  - intros z Hz. cbn [int_in_range]. apply Z.ltb_lt.
    assert (2 ^ 64 < 2 ^ 1023)%Z by (apply Z.pow_lt_mono_r; lia).
    assert (0 < 2 ^ 63)%Z by (apply Z.pow_pos_nonneg; lia).
    assert (2 ^ 63 < 2 ^ 64)%Z by (apply Z.pow_lt_mono_r; lia).
    lia.
Qed.

Lemma core_total_in_range_witness :
  exists k,
    calculate_kpis (scenario sample_dates sample_ebitda)
                   (detect_columns lower_ascii scenario_headers) = Ok k
    /\ marge_nette k =
       if (0 <? revenus_totaux k)%float
       then (resultat_net k / revenus_totaux k * 100)%float
       else 0%float.
Proof.
  apply (core_total_in_range
           (scenario sample_dates sample_ebitda)
           (detect_columns lower_ascii scenario_headers)
           (py "abc")).
  repeat constructor.
Defined.

(** An [int] of 1025 bits makes [clean_numeric_value], and with it
    [calculate_kpis], raise [OverflowError]. *)
Lemma core_total_counterexample :
  clean_numeric_value (VInt (2 ^ 1024)) = Raise OverflowError
  /\ calculate_kpis [(py "Revenus", [VInt (2 ^ 1024)])]
                    (detect_columns lower_ascii [py "Revenus"]) =
     Raise OverflowError.
Proof. split; vm_compute; reflexivity. Qed.

(** * Further properties *)

(** ** What [detect_columns] returns *)

Lemma dict_get_In (d : dict) (k v : str) :
  dict_get d k = Some v -> In (k, v) d.
Proof.
  induction d as [|[k' v'] d IH]; cbn [dict_get]; [discriminate|].
  destruct (str_eqb k' k) eqn:E.
  - intros [= <-]. apply str_eqb_eq in E. subst k'. now left.
  - right. auto.
Qed.

Lemma ordered_scan_In (lower : str -> str) (headers : list str) (k v : str) :
  In (k, v) (ordered_scan lower headers) <->
  exists patterns,
    In (k, patterns) COLUMN_PATTERNS
    /\ first_match lower patterns headers = Some v.
Proof.
  unfold ordered_scan. rewrite in_flat_map. split.
  - intros [[category patterns] [Hreg Hin]].
    destruct (first_match lower patterns headers) as [h|] eqn:E;
      [|destruct Hin].
    destruct Hin as [[= <- <-] | []]. now exists patterns.
  - intros [patterns [Hreg Hfirst]]. exists (k, patterns).
    split; [assumption|]. rewrite Hfirst. now left.
Qed.

Lemma scan_keys_NoDup (lower : str -> str)
      (registry : list (str * list str)) (headers : list str) :
  NoDup (map fst registry) ->
  NoDup (map fst
             (flat_map (fun '(category, patterns) =>
                          match first_match lower patterns headers with
                          | Some h => [(category, h)]
                          | None => []
                          end) registry))
  /\ incl (map fst
               (flat_map (fun '(category, patterns) =>
                            match first_match lower patterns headers with
                            | Some h => [(category, h)]
                            | None => []
                            end) registry))
          (map fst registry).
Proof.
  induction registry as [|[k ps] registry IH]; intros Hnd.
  - split; [constructor | easy].
  - inversion Hnd as [|? ? Hnotin Hnd']; subst.
    destruct (IH Hnd') as [IH1 IH2]. cbn [flat_map map fst].
    destruct (first_match lower ps headers) as [h|]; cbn [app map fst].
    + split.
      * constructor; [|assumption]. intros H. apply Hnotin. now apply IH2.
      * intros x [<- | Hx]; [now left | right; now apply IH2].
    + split; [assumption|]. intros x Hx. right. now apply IH2.
Qed.

Lemma scan_length (lower : str -> str)
      (registry : list (str * list str)) (headers : list str) :
  (List.length
     (flat_map (fun '(category, patterns) =>
                  match first_match lower patterns headers with
                  | Some h => [(category, h)]
                  | None => []
                  end) registry) <= List.length registry)%nat.
Proof.
  induction registry as [|[k ps] registry IH]; [reflexivity|].
  cbn [flat_map]. rewrite length_app.
  destruct (first_match lower ps headers); cbn [List.length]; lia.
Qed.

Lemma detect_columns_entry (lower : str -> str) (headers : list str)
      (category header : str) :
  In (category, header) (detect_columns lower headers) ->
  In header headers
  /\ exists patterns,
      In (category, patterns) COLUMN_PATTERNS
      /\ matches patterns (normalize lower header) = true.
Proof.
  rewrite detect_columns_ordered_scan. intros Hin.
  apply ordered_scan_In in Hin. destruct Hin as [patterns [Hreg Hfirst]].
  apply find_some in Hfirst. destruct Hfirst as [Hh Hm].
  split; [assumption|]. now exists patterns.
Qed.

(** The result of [detect_columns] holds every category at most once, at
    most ten entries, only categories of the registry and only headers of
    the input, each a header that matches its category. *)
Theorem detect_columns_well_formed (lower : str -> str) (headers : list str) :
  NoDup (map fst (detect_columns lower headers))
  /\ (List.length (detect_columns lower headers) <= 10)%nat
  /\ forall category header,
      In (category, header) (detect_columns lower headers) ->
      In header headers
      /\ exists patterns,
          In (category, patterns) COLUMN_PATTERNS
          /\ matches patterns (normalize lower header) = true.
Proof.
  split; [|split].
  - rewrite detect_columns_ordered_scan.
    apply scan_keys_NoDup, registry_keys_distinct.
  - rewrite detect_columns_ordered_scan.
    apply (scan_length lower COLUMN_PATTERNS headers).
  - apply detect_columns_entry.
Qed.

Lemma detect_columns_well_formed_witness :
  In (py "Revenus") [py "Date"; py "Revenus"].
Proof.
  destruct (detect_columns_well_formed lower_ascii [py "Date"; py "Revenus"])
    as [_ [_ H]].
  apply (H (py "revenus") (py "Revenus")).
  vm_compute. tauto.
Defined.

(** In the pipeline of [upload_csv] the header of a detected category is
    always a label of the data frame: the test [col_name in df.columns]
    of [get_column_sum] holds, and the sum of a detected category is the
    sum of the cells [df[col_name]] gives. *)
Theorem detected_header_in_columns
        (lower : str -> str) (df : DataFrame) (category col_name : str) :
  dict_get (detect_columns lower (columns df)) category = Some col_name ->
  existsb (str_eqb col_name) (columns df) = true
  /\ get_column_sum df (detect_columns lower (columns df)) category =
     sum_from 0%float (getitem df col_name).
Proof.
  intros Hget.
  assert (Hin : existsb (str_eqb col_name) (columns df) = true).
  { apply existsb_exists. exists col_name. split; [|apply str_eqb_refl].
    apply dict_get_In in Hget.
    now apply detect_columns_entry in Hget. }
  split; [exact Hin|]. unfold get_column_sum. now rewrite Hget, Hin.
Qed.

Lemma detected_header_in_columns_witness :
  get_column_sum loss_frame
                 (detect_columns lower_ascii (columns loss_frame))
                 (py "charges") =
  sum_from 0%float (getitem loss_frame (py "Charges")).
Proof.
  apply (detected_header_in_columns lower_ascii loss_frame
           (py "charges") (py "Charges")).
  vm_compute. reflexivity.
Defined.

(** What is detected stays detected when headers are added at the end:
    the first match wins. *)
Theorem detect_columns_append_headers
        (lower : str -> str) (headers more : list str)
        (category header : str) :
  dict_get (detect_columns lower headers) category = Some header ->
  dict_get (detect_columns lower (headers ++ more)) category = Some header.
Proof.
  rewrite !detect_columns_ordered_scan. intros Hget.
  pose proof (dict_get_In _ _ _ Hget) as Hin.
  apply ordered_scan_In in Hin. destruct Hin as [patterns [Hreg Hfirst]].
  unfold ordered_scan.
  rewrite (dict_get_scan lower _ _ _ _ registry_keys_distinct Hreg).
  now rewrite first_match_app, Hfirst.
Qed.

Lemma detect_columns_append_headers_witness :
  dict_get (detect_columns lower_ascii
              ([py "Revenus"] ++ [py "Sales"; py "Income"]))
           (py "revenus") = Some (py "Revenus").
Proof.
  apply (detect_columns_append_headers lower_ascii
           [py "Revenus"] [py "Sales"; py "Income"]
           (py "revenus") (py "Revenus")).
  vm_compute. reflexivity.
Defined.

Lemma first_match_normalized (lower : str -> str) (patterns : list str)
      (hs hs' : list str) :
  map (normalize lower) hs = map (normalize lower) hs' ->
  option_map (normalize lower) (first_match lower patterns hs) =
  option_map (normalize lower) (first_match lower patterns hs').
Proof.
  unfold first_match. revert hs'.
  induction hs as [|h hs IH]; intros [|h' hs'] Heq; try discriminate;
    [reflexivity|].
  injection Heq as Hh Heq. cbn [find]. rewrite <- Hh.
  destruct (matches patterns (normalize lower h));
    [cbn; now rewrite Hh | now apply IH].
Qed.

(** Detection sees the headers through their normalization only: two
    header lists that normalize alike (that differ in case, or in blanks,
    hyphens and underscores) give the same categories, with headers that
    normalize alike. *)
Theorem detect_columns_normalized
        (lower : str -> str) (headers headers' : list str) :
  map (normalize lower) headers = map (normalize lower) headers' ->
  map fst (detect_columns lower headers) =
  map fst (detect_columns lower headers')
  /\ map (fun kv => normalize lower (snd kv)) (detect_columns lower headers) =
     map (fun kv => normalize lower (snd kv)) (detect_columns lower headers').
Proof.
  intros Heq. rewrite !detect_columns_ordered_scan. unfold ordered_scan.
  induction COLUMN_PATTERNS as [|[k ps] registry [IH1 IH2]];
    [now split|].
  cbn [flat_map]. rewrite !map_app, IH1, IH2.
  pose proof (first_match_normalized lower ps _ _ Heq) as H.
  destruct (first_match lower ps headers) as [h|],
           (first_match lower ps headers') as [h'|];
    try discriminate; [|now split].
  injection H as H. cbn [map fst snd]. now rewrite H.
Qed.

Lemma detect_columns_normalized_witness :
  map fst (detect_columns lower_ascii [py "Cash Flow"; py "NET-INCOME"]) =
  map fst (detect_columns lower_ascii [py "cash_flow"; py "net_income"]).
Proof.
  apply (detect_columns_normalized lower_ascii
           [py "Cash Flow"; py "NET-INCOME"]
           [py "cash_flow"; py "net_income"]).
  vm_compute. reflexivity.
Defined.

Lemma detected_when_matching (lower : str -> str) (headers : list str)
      (h category : str) (patterns : list str) :
  In (category, patterns) COLUMN_PATTERNS ->
  In h headers ->
  matches patterns (normalize lower h) = true ->
  exists h', dict_get (detect_columns lower headers) category = Some h'.
Proof.
  intros Hreg Hin Hm. rewrite detect_columns_ordered_scan. unfold ordered_scan.
  rewrite (dict_get_scan lower _ _ _ _ registry_keys_distinct Hreg).
  unfold first_match.
  destruct (find _ headers) as [h'|] eqn:E; [now exists h'|].
  pose proof (find_none _ _ E h Hin) as H. cbn beta in H. congruence.
Qed.

Lemma substring_trans (a b c : str) :
  substring a b -> substring b c -> substring a c.
Proof.
  intros [p1 [q1 ->]] [p2 [q2 ->]]. exists (p2 ++ p1), (q1 ++ q2).
  now rewrite <- !app_assoc.
Qed.

Lemma matches_pattern (patterns : list str) (pattern col : str) :
  In pattern patterns -> substring pattern col ->
  matches patterns col = true.
Proof.
  intros Hin Hsub. unfold matches. apply existsb_exists. exists pattern.
  split; [assumption|]. apply orb_true_iff. left. now apply contains_spec.
Qed.

(** The categories overlap.  A header that holds ebitda is a match for
    resultat_operationnel too, through its pattern ebit: with such a
    header, both categories are detected.  A header that holds ca, such
    as cash_flow or capex, is a match for revenus: it is recorded as the
    revenue column when no header before it matches. *)
Theorem detect_columns_overlap
        (lower : str -> str) (headers : list str) (h : str) :
  In h headers ->
  (substring (py "ebitda") (normalize lower h) ->
   (exists h1, dict_get (detect_columns lower headers) (py "ebitda")
               = Some h1)
   /\ (exists h2, dict_get (detect_columns lower headers)
                           (py "resultat_operationnel") = Some h2))
  /\ (substring (py "ca") (normalize lower h) ->
      (exists h3, dict_get (detect_columns lower headers) (py "revenus")
                  = Some h3)
      /\ forall post,
          dict_get (detect_columns lower (h :: post)) (py "revenus")
          = Some h).
Proof.
  intros Hin. split.
  - intros Hsub. split.
    + apply (detected_when_matching lower headers h (py "ebitda")
               (map py ["ebitda";
                        "earnings_before_interest_taxes_depreciation_amortization"]));
        [vm_compute; tauto | assumption |].
      apply (matches_pattern _ (py "ebitda")); [now left | assumption].
    + apply (detected_when_matching lower headers h
               (py "resultat_operationnel")
               (map py ["resultat_operationnel"; "operating_income";
                        "operating_result"; "ebit"]));
        [vm_compute; tauto | assumption |].
      apply (matches_pattern _ (py "ebit")); [vm_compute; tauto|].
      apply (substring_trans _ (py "ebitda")); [|assumption].
      now exists [], (py "da").
  - intros Hsub.
    assert (Hreg : In (py "revenus",
                       map py ["revenus"; "revenue"; "sales"; "ventes";
                               "chiffre_affaires"; "ca"; "turnover";
                               "income"]) COLUMN_PATTERNS)
      by (vm_compute; tauto).
    assert (Hm : matches (map py ["revenus"; "revenue"; "sales"; "ventes";
                                  "chiffre_affaires"; "ca"; "turnover";
                                  "income"]) (normalize lower h) = true).
    { apply (matches_pattern _ (py "ca")); [vm_compute; tauto | assumption]. }
    split.
    + exact (detected_when_matching lower headers h _ _ Hreg Hin Hm).
    + intros post. rewrite detect_columns_ordered_scan. unfold ordered_scan.
      rewrite (dict_get_scan lower _ _ _ _ registry_keys_distinct Hreg).
      unfold first_match. cbn [find]. now rewrite Hm.
Qed.

Lemma detect_columns_overlap_witness :
  dict_get (detect_columns lower_ascii [py "Cash_Flow"; py "Revenus"])
           (py "revenus") = Some (py "Cash_Flow").
Proof.
  destruct (detect_columns_overlap lower_ascii [py "Cash_Flow"] (py "Cash_Flow"))
    as [_ H].
  - now left.
  - apply H. exists [], (py "sh_flow"). reflexivity.
Defined.

(** ** What [clean_numeric_value] ignores *)

Lemma filter_lstrip (p sp : N -> bool) (s : str) :
  (forall c, sp c = true -> p c = false) ->
  filter p (lstrip_by sp s) = filter p s.
Proof.
  intros H. induction s as [|c s IH]; [reflexivity|].
  cbn [lstrip_by]. destruct (sp c) eqn:E; [|reflexivity].
  cbn [filter]. now rewrite (H c E).
Qed.

Lemma filter_rstrip (p sp : N -> bool) (s : str) :
  (forall c, sp c = true -> p c = false) ->
  filter p (rstrip_by sp s) = filter p s.
Proof.
  intros H. unfold rstrip_by.
  now rewrite filter_rev, filter_lstrip, <- filter_rev, rev_involutive.
Qed.

Lemma re_sub_class_strip (s : str) :
  re_sub_class symbol_class (strip s) = re_sub_class symbol_class s.
Proof.
  unfold re_sub_class, strip.
  rewrite filter_rstrip, filter_lstrip; [reflexivity | |];
    intros c Hc; now rewrite Hc, orb_true_r.
Qed.

(** A text cell is read through the regular expression and the
    replacement alone: the first test and [strip] add nothing to them. *)
Lemma clean_numeric_value_text (s : str) :
  clean_numeric_value (VStr s) =
  or_zero (float_of_str
             (replace (ch ",") (ch ".") (re_sub_class symbol_class s))).
Proof.
  destruct s as [|c s]; [vm_compute; reflexivity|].
  rewrite clean_numeric_value_str by discriminate.
  unfold cleaned_text. rewrite re_sub_class_strip.
  now destruct (float_of_str _) as [f|[]].
Qed.

Lemma filter_map_comm (p : N -> bool) (f : N -> N) (s : str) :
  (forall c, p (f c) = p c) ->
  filter p (map f s) = map f (filter p s).
Proof.
  intros H. induction s as [|c s IH]; [reflexivity|].
  cbn [map filter]. rewrite H, IH. now destruct (p c).
Qed.

Lemma re_sub_class_replace (s : str) :
  re_sub_class symbol_class (replace (ch ",") (ch ".") s) =
  replace (ch ",") (ch ".") (re_sub_class symbol_class s).
Proof.
  unfold re_sub_class, replace. apply filter_map_comm. intros c.
  destruct (N.eqb_spec c (ch ",")) as [->|Hc]; reflexivity.
Qed.

Lemma replace_idempotent (old new : N) (s : str) :
  replace old new (replace old new s) = replace old new s.
Proof.
  unfold replace. rewrite map_map. apply map_ext. intros c.
  destruct (N.eqb_spec c old) as [->|Hc].
  - destruct (N.eqb_spec new old); reflexivity.
  - now apply N.eqb_neq in Hc as ->.
Qed.

(** Commas and points are one to [clean_numeric_value]: a text gives the
    same number with its commas written as points. *)
Theorem clean_numeric_value_comma_point (s : str) :
  clean_numeric_value (VStr (replace (ch ",") (ch ".") s)) =
  clean_numeric_value (VStr s).
Proof.
  now rewrite !clean_numeric_value_text, re_sub_class_replace,
    replace_idempotent.
Qed.

(** A dollar sign or a white space, wherever it stands in a text, does
    not change what the text is cleaned to; so do the characters that
    [strip] and the regular expression remove together. *)
Theorem clean_numeric_value_ignores (a b : str) (c : N) :
  c = ch "$" \/ isspace c = true ->
  clean_numeric_value (VStr (a ++ c :: b)) =
  clean_numeric_value (VStr (a ++ b))
  /\ clean_numeric_value (VStr (re_sub_class symbol_class (a ++ b))) =
     clean_numeric_value (VStr (a ++ b)).
Proof.
  intros Hc. rewrite !clean_numeric_value_text. split.
  - unfold re_sub_class. rewrite !filter_app. cbn [filter].
    destruct Hc as [-> | Hc]; [reflexivity|].
    now rewrite Hc, orb_true_r.
  - f_equal. f_equal. f_equal. unfold re_sub_class.
    induction (a ++ b) as [|x l IH]; [reflexivity|].
    cbn [filter]. destruct (negb _) eqn:E; [|exact IH].
    cbn [filter]. now rewrite E, IH.
Qed.

Lemma clean_numeric_value_ignores_witness :
  clean_numeric_value (VStr (py "1" ++ ch " " :: py "200")) =
  clean_numeric_value (VStr (py "1" ++ py "200")).
Proof.
  apply (clean_numeric_value_ignores (py "1") (py "200") (ch " ")).
  right. reflexivity.
Defined.

(** ** Integers without rounding *)

Section Exact.

Local Open Scope Z_scope.

Lemma shl_align_value (mx : positive) (ex ex' : Z) (mz : positive) (ez : Z) :
  shl_align mx ex ex' = (mz, ez) ->
  ez <= ex /\ Zpos mz = Zpos mx * 2 ^ (ex - ez).
Proof.
  unfold shl_align. destruct (ex' - ex) as [|d|d] eqn:Hd;
    intros [= <- <-].
  - rewrite Z.sub_diag. lia.
  - rewrite Z.sub_diag. lia.
  - rewrite Zpos_iter_xO. split; [lia|]. f_equal. f_equal. lia.
Qed.

Lemma binary_round_aux_exact (sx : bool) (mz : positive) (ez : Z) :
  Zdigits2 (Zpos mz) = 53 -> -1074 <= ez <= 971 ->
  binary_round_aux prec emax sx (Zpos mz) ez loc_Exact =
  S754_finite sx mz ez.
Proof.
  intros Hd He. unfold binary_round_aux, shr_fexp. rewrite Hd.
  replace (fexp prec emax (53 + ez) - ez) with 0
    by (unfold fexp, SpecFloat.emin, prec, emax; lia).
  cbn [shr shr_record_of_loc shr_m loc_of_shr_record round_nearest_even].
  rewrite Hd.
  replace (fexp prec emax (53 + ez) - ez) with 0
    by (unfold fexp, SpecFloat.emin, prec, emax; lia).
  cbn [shr shr_record_of_loc shr_m].
  destruct (Z.leb_spec ez (emax - prec)); [reflexivity|].
  unfold prec, emax in *. lia.
Qed.

(** A positive integer of at most 53 bits is a float as it is. *)
Lemma binary_round_exact (sx : bool) (p : positive) :
  Zpos p < 2 ^ 53 ->
  exists m e,
    binary_round prec emax sx p 0 = S754_finite sx m e
    /\ valid_binary (S754_finite sx m e) = true
    /\ e <= 0
    /\ Zpos m = Zpos p * 2 ^ (- e).
Proof.
  intros Hp. unfold binary_round.
  assert (Hd : Zdigits2 (Zpos p) <= 53).
  { rewrite Zdigits2_log2 by lia. apply Z.log2_lt_pow2 in Hp; lia. }
  assert (Hd0 : 1 <= Zdigits2 (Zpos p)).
  { rewrite Zdigits2_log2 by lia. pose proof (Z.log2_nonneg (Zpos p)). lia. }
  destruct (shl_align p 0 _) as [mz ez] eqn:E.
  destruct (shl_align_spec _ _ _ _ _ E) as [Hez Hdz].
  destruct (shl_align_value _ _ _ _ _ E) as [_ Hval].
  cbn [Zdigits2] in *.
  assert (Hez' : ez = Zpos (digits2_pos p) - 53).
  { unfold fexp, SpecFloat.emin, prec, emax in Hez. lia. }
  assert (Hdz' : Zpos (digits2_pos mz) = 53) by lia.
  exists mz, ez. split; [|split; [|split]].
  - apply binary_round_aux_exact; [exact Hdz' | lia].
  - cbn [valid_binary]. unfold bounded, canonical_mantissa. rewrite Hdz'.
    apply andb_true_iff. split; [apply Z.eqb_eq | apply Z.leb_le];
      unfold fexp, SpecFloat.emin, prec, emax; lia.
  - lia.
  - rewrite Hval. f_equal.
Qed.

(** An [int] cell below [2 ^ 53] in magnitude is cleaned to the float of
    exactly its value: mantissa times two to the exponent is the
    integer. *)
Theorem clean_numeric_value_int_exact (z : Z) :
  Z.abs z < 2 ^ 53 ->
  exists f,
    clean_numeric_value (VInt z) = Ok f
    /\ (z = 0 -> f = 0%float)
    /\ (z <> 0 ->
        exists m e,
          Prim2SF f = S754_finite (z <? 0) m e
          /\ e <= 0
          /\ Zpos m = Z.abs z * 2 ^ (- e)).
Proof.
  intros Hz. unfold clean_numeric_value.
  cbn [isna eq_empty is_None orb]. unfold float_of_int, binary_normalize.
  destruct z as [|p|p].
  - exists 0%float. repeat split. intros H. now elim H.
  - destruct (binary_round_exact false p) as (m & e & -> & Hv & He & Hm);
      [lia|].
    eexists. split; [reflexivity|]. split; [discriminate|]. intros _.
    exists m, e. rewrite (Prim2SF_SF2Prim _ Hv).
    split; [reflexivity | split; [exact He | exact Hm]].
  - destruct (binary_round_exact true p) as (m & e & -> & Hv & He & Hm);
      [lia|].
    eexists. split; [reflexivity|]. split; [discriminate|]. intros _.
    exists m, e. rewrite (Prim2SF_SF2Prim _ Hv).
    split; [reflexivity | split; [exact He | exact Hm]].
Qed.

Lemma clean_numeric_value_int_exact_witness :
  exists f, clean_numeric_value (VInt (-125000)) = Ok f.
Proof.
  destruct (clean_numeric_value_int_exact (-125000)) as [f [Hf _]].
  - reflexivity.
  - now exists f.
Defined.

End Exact.

(** ** What [calculate_kpis] can raise *)

Lemma clean_numeric_value_raise (v : value) (e : exn) :
  clean_numeric_value v = Raise e ->
  e = OverflowError /\ int_in_range v = false.
Proof.
  intros H. split.
  - destruct v as [|b|z|f|s].
    + discriminate H.
    + discriminate H.
    + unfold clean_numeric_value, float_of_int in H.
      cbn [isna eq_empty is_None orb] in H.
      destruct (binary_normalize prec emax z 0 false);
        (discriminate H || now injection H).
    + unfold clean_numeric_value in H. cbn [isna eq_empty is_None] in H.
      rewrite !orb_false_r in H. destruct (is_nan f); discriminate H.
    + rewrite clean_numeric_value_text in H.
      destruct (float_of_str_cases
                  (replace (ch ",") (ch ".") (re_sub_class symbol_class s)))
        as [[f Hf] | Hf]; rewrite Hf in H; discriminate H.
  - destruct (int_in_range v) eqn:E; [|reflexivity].
    destruct (clean_numeric_value_in_range v E) as [f Hf]. congruence.
Qed.

Lemma sum_from_raise (cells : list value) (acc : float) (e : exn) :
  sum_from acc cells = Raise e ->
  e = OverflowError /\ Exists (fun v => int_in_range v = false) cells.
Proof.
  revert acc. induction cells as [|v cells IH]; intros acc; cbn [sum_from];
    [discriminate|].
  destruct (clean_numeric_value v) as [x|e'] eqn:E; cbn [bind].
  - intros H. destruct (IH _ H) as [He Hex]. split; [exact He|].
    now apply Exists_cons_tl.
  - intros [= <-]. destruct (clean_numeric_value_raise v e' E) as [He Hv].
    split; [exact He|]. now apply Exists_cons_hd.
Qed.

Lemma get_column_sum_raise (df : DataFrame) (dc : dict) (key : str) (e : exn) :
  get_column_sum df dc key = Raise e ->
  e = OverflowError /\ Exists (fun v => int_in_range v = false) (cells df).
Proof.
  unfold get_column_sum.
  destruct (dict_get dc key) as [name|]; [|discriminate].
  destruct (existsb _ _); [|discriminate].
  intros H. apply sum_from_raise in H. destruct H as [He Hex].
  split; [exact He|]. apply Exists_exists in Hex.
  destruct Hex as [v [Hv Hr]]. apply Exists_exists. exists v.
  split; [|exact Hr]. revert Hv. unfold getitem, cells.
  assert (Hsel : forall c, In c (filter (fun c => str_eqb (fst c) name) df) ->
                           In c df)
    by (intros c Hc; now apply filter_In in Hc).
  destruct (filter _ df) as [|c [|c' sel]].
  - intros [].
  - intros Hv. apply in_flat_map. exists c. split; [|exact Hv].
    apply Hsel. now left.
  - intros Hv. apply in_map_iff in Hv. destruct Hv as [x [<- _]].
    discriminate Hr.
Qed.

(** One step of [calculate_kpis] in a hypothesis that says it raised:
    either the next column sum raised that exception, or the run went
    on. *)
Ltac kpi_raise_step H :=
  cbn [bind] in H;
  lazymatch type of H with
  | bind (get_column_sum ?df ?dc ?c) _ = Raise _ =>
      let E := fresh "E" in
      destruct (get_column_sum df dc c) eqn:E;
      [|cbn [bind] in H; injection H as <-;
        exact (get_column_sum_raise _ _ _ _ E)]
  | bind (bind (get_column_sum ?df ?dc ?c) _) _ = Raise _ =>
      let E := fresh "E" in
      destruct (get_column_sum df dc c) eqn:E;
      [|cbn [bind] in H; injection H as <-;
        exact (get_column_sum_raise _ _ _ _ E)]
  | bind (if (0 <? ?x)%float then _ else _) _ = Raise _ =>
      destruct (0 <? x)%float eqn:?
  | bind (bind (truediv _ ?b) _) _ = Raise _ =>
      unfold truediv in H; rewrite (ltb_zero_eqb b) in H by assumption
  end.

(** The only exception [calculate_kpis] raises is [OverflowError], and it
    raises it only when a cell of the data frame holds an [int] of
    [2 ^ 1023] or more in magnitude: never [ZeroDivisionError], never
    [ValueError]. *)
Theorem calculate_kpis_raises_overflow_only
        (df : DataFrame) (dc : dict) (e : exn) :
  calculate_kpis df dc = Raise e ->
  e = OverflowError
  /\ exists z, In (VInt z) (cells df) /\ (2 ^ 1023 <= Z.abs z)%Z.
Proof.
  intros H.
  assert (Hraise : e = OverflowError
                   /\ Exists (fun v => int_in_range v = false) (cells df)).
  { unfold calculate_kpis in H. repeat kpi_raise_step H.
    all: cbn [bind] in H; discriminate H. }
  destruct Hraise as [He Hex]. split; [exact He|].
  apply Exists_exists in Hex. destruct Hex as [v [Hin Hv]].
  destruct v as [|b|z|f|s]; try discriminate Hv.
  exists z. split; [exact Hin|]. cbn [int_in_range] in Hv.
  now apply Z.ltb_ge in Hv.
Qed.

Lemma calculate_kpis_raises_overflow_only_witness :
  exists z,
    In (VInt z) (cells [(py "Revenus", [VInt (2 ^ 1024)])])
    /\ (2 ^ 1023 <= Z.abs z)%Z.
Proof.
  apply (calculate_kpis_raises_overflow_only
           [(py "Revenus", [VInt (2 ^ 1024)])]
           (detect_columns lower_ascii [py "Revenus"]) OverflowError).
  vm_compute. reflexivity.
Defined.

(** ** Cells and columns that do not count *)

Lemma sum_from_drop_zero (cells : list value) (acc : float) :
  Prim2SF acc <> S754_zero true ->
  sum_from acc (filter (fun v => negb (cleans_to_zero v)) cells) =
  sum_from acc cells.
Proof.
  revert acc. induction cells as [|v cells IH]; intros acc Hacc;
    [reflexivity|].
  cbn [filter]. unfold cleans_to_zero at 1.
  destruct (clean_numeric_value v) as [x|e] eqn:E.
  - destruct (x =? 0)%float eqn:Hx; cbn [negb].
    + cbn [sum_from]. rewrite E. cbn [bind].
      rewrite (add_zero_r acc x Hx Hacc). now apply IH.
    + cbn [sum_from]. rewrite E. cbn [bind]. apply IH.
      now apply add_not_neg_zero.
  - cbn [negb sum_from]. now rewrite E.
Qed.

Lemma columns_drop_zero_cells (df : DataFrame) :
  columns (drop_zero_cells df) = columns df.
Proof.
  unfold columns, drop_zero_cells. rewrite map_map. apply map_ext.
  now intros [label cs].
Qed.

Lemma filter_drop_zero_cells (df : DataFrame) (name : str) :
  filter (fun c => str_eqb (fst c) name) (drop_zero_cells df) =
  drop_zero_cells (filter (fun c => str_eqb (fst c) name) df).
Proof.
  unfold drop_zero_cells. induction df as [|[label cs] df IH]; [reflexivity|].
  cbn [map filter fst]. rewrite IH. now destruct (str_eqb label name).
Qed.

Lemma get_column_sum_drop_zero_cells (df : DataFrame) (dc : dict) (key : str) :
  get_column_sum (drop_zero_cells df) dc key = get_column_sum df dc key.
Proof.
  unfold get_column_sum. destruct (dict_get dc key) as [name|]; [|reflexivity].
  rewrite columns_drop_zero_cells. destruct (existsb _ _); [|reflexivity].
  unfold getitem. rewrite filter_drop_zero_cells.
  destruct (filter _ df) as [|[label cs] [|[label' cs'] sel]]; [reflexivity | |].
  - cbn [drop_zero_cells map snd]. now apply sum_from_drop_zero.
  - f_equal. unfold drop_zero_cells. cbn [map fst]. f_equal. f_equal.
    rewrite map_map. apply map_ext. now intros [l x].
Qed.

(** The cells that are cleaned to zero (zeros, blanks, missing values,
    texts that are not numbers) do not count, wherever they stand: the
    data frame without them has the same column sums and the same
    result. *)
Theorem calculate_kpis_drop_zero_cells (df : DataFrame) (dc : dict) :
  (forall key, get_column_sum (drop_zero_cells df) dc key =
               get_column_sum df dc key)
  /\ calculate_kpis (drop_zero_cells df) dc = calculate_kpis df dc.
Proof.
  split; [intros key; apply get_column_sum_drop_zero_cells|].
  apply calculate_kpis_sums. intros key _.
  apply get_column_sum_drop_zero_cells.
Qed.

(** When no header of the mapping is a label of the data frame, whether
    the mapping is empty, the frame has no column, or the mapping comes
    from other headers, every indicator is 0.0. *)
Theorem calculate_kpis_nothing_detected (df : DataFrame) (dc : dict) :
  (forall key name, dict_get dc key = Some name -> ~ In name (columns df)) ->
  calculate_kpis df dc = Ok zero_kpis
  /\ calculate_kpis df [] = Ok zero_kpis
  /\ calculate_kpis [] dc = Ok zero_kpis.
Proof.
  assert (Hzero : forall df dc,
             (forall key name, dict_get dc key = Some name ->
                               ~ In name (columns df)) ->
             calculate_kpis df dc = Ok zero_kpis).
  { clear df dc. intros df dc H.
    assert (Hsum : forall key, get_column_sum df dc key = Ok 0%float).
    { intros key. unfold get_column_sum.
      destruct (dict_get dc key) as [name|] eqn:E; [|reflexivity].
      destruct (existsb _ _) eqn:Hex; [|reflexivity].
      apply existsb_exists in Hex. destruct Hex as [x [Hx Heq]].
      apply str_eqb_eq in Heq. subst x. now elim (H key name E). }
    unfold calculate_kpis. rewrite !Hsum. reflexivity. }
  intros H. split; [now apply Hzero|]. split; apply Hzero.
  - intros key name Hget. discriminate Hget.
  - intros key name _ [].
Qed.

Lemma calculate_kpis_nothing_detected_witness :
  calculate_kpis loss_frame [(py "revenus", py "Sales")] = Ok zero_kpis.
Proof.
  apply (calculate_kpis_nothing_detected
           loss_frame [(py "revenus", py "Sales")]).
  intros key name Hget Hin. cbn [dict_get] in Hget.
  destruct (str_eqb (py "revenus") key); [|discriminate Hget].
  injection Hget as <-. vm_compute in Hin.
  repeat (destruct Hin as [Hin | Hin]; [discriminate Hin|]).
  destruct Hin.
Defined.

(** When both direct sums are missing or not positive, the two fallback
    formulas agree with the comment of the source: resultat_net is ebitda
    minus the sum of impots. *)
Theorem calculate_kpis_double_fallback
        (df : DataFrame) (dc : dict) (k : kpis) (rop net : float) :
  calculate_kpis df dc = Ok k ->
  get_column_sum df dc (py "resultat_operationnel") = Ok rop ->
  get_column_sum df dc (py "resultat_net") = Ok net ->
  (0 <? rop)%float = false ->
  (0 <? net)%float = false ->
  exists impots,
    get_column_sum df dc (py "impots") = Ok impots
    /\ resultat_net k = (ebitda k - impots)%float.
Proof.
  intros Hk Hrop Hnet Hr Hn.
  destruct (calculate_kpis_inv df dc k Hk)
    as (rop' & am & net' & cf & inv
        & _ & Hrop' & _ & Hnet' & Hcf & Hinv & He & Hrn & Hf & _).
  rewrite Hrop in Hrop'. injection Hrop' as <-.
  rewrite Hnet in Hnet'. injection Hnet' as <-.
  rewrite Hr in He. rewrite Hn in Hrn.
  destruct He as (ch & Hch & He). destruct Hrn as (ch' & imp & Hch' & Himp & Hrn).
  rewrite Hch in Hch'. injection Hch' as <-.
  exists imp. split; [exact Himp|]. now rewrite Hrn, He.
Qed.

Lemma calculate_kpis_double_fallback_witness :
  exists impots,
    get_column_sum loss_frame
                   (detect_columns lower_ascii (columns loss_frame))
                   (py "impots") = Ok impots
    /\ 7%float = (7 - impots)%float.
Proof.
  destruct (calculate_kpis_double_fallback
              loss_frame (detect_columns lower_ascii (columns loss_frame))
              {| revenus_totaux := 10; ebitda := 7; resultat_net := 7;
                 free_cash_flow := 5; marge_nette := 70 |}
              0%float (-5)%float)
    as (imp & Himp & Hrn); try (vm_compute; reflexivity).
  exists imp. split; [exact Himp | exact Hrn].
Defined.

(** The result depends on the data frame through the columns the mapping
    names only: two frames with the same labels and the same cells under
    those names give the same result. *)
Theorem calculate_kpis_other_columns (df df' : DataFrame) (dc : dict) :
  columns df = columns df' ->
  (forall name, In name (map snd dc) -> getitem df name = getitem df' name) ->
  calculate_kpis df dc = calculate_kpis df' dc.
Proof.
  intros Hcols Hcells. apply calculate_kpis_sums. intros key _.
  unfold get_column_sum. destruct (dict_get dc key) as [name|] eqn:E;
    [|reflexivity].
  rewrite Hcols, (Hcells name (dict_get_value _ _ _ E)). reflexivity.
Qed.

Lemma calculate_kpis_other_columns_witness :
  calculate_kpis (scenario sample_dates sample_ebitda)
                 (detect_columns lower_ascii
                                 (map py ["Revenus"; "Charges"])) =
  calculate_kpis (scenario [] sample_ebitda)
                 (detect_columns lower_ascii
                                 (map py ["Revenus"; "Charges"])).
Proof.
  apply (calculate_kpis_other_columns
           (scenario sample_dates sample_ebitda)
           (scenario [] sample_ebitda)
           (detect_columns lower_ascii (map py ["Revenus"; "Charges"]))).
  - reflexivity.
  - intros name Hin. vm_compute in Hin.
    destruct Hin as [<- | [<- | []]]; reflexivity.
Defined.

(** ** The routes *)

Section RouteFacts.

Variable lower : str -> str.
Variable str_exn : Api.py_exn -> str.
Variable read_csv : list N -> Api.outcome DataFrame.
Variable uuid4 : str.
Variable utcnow : Z.
Variable collection : Type.
Variable document : Type.
Variable insert_one :
  collection -> Api.FinancialData -> Api.outcome unit * collection.
Variable find_one : collection -> str -> Api.outcome (option document).
Variable json : Type.
Variable JSONResponse_upload : Api.upload_content -> Api.outcome json.
Variable JSONResponse_document : document -> Api.outcome json.

(** A file whose name does not end in .csv, in lower case, is answered
    with the status 500, not 400: the exception of status 400 is raised
    inside the [try] and caught by its [except Exception].  The file is
    not parsed and nothing is stored. *)
Theorem upload_csv_rejected_name (file : Api.UploadFile) (db : collection) :
  Api.endswith (Api.filename file) (py ".csv") = false ->
  Api.upload_csv lower str_exn read_csv uuid4 utcnow collection insert_one
                 json JSONResponse_upload file db =
  (Api.Throw
     (Api.HTTPException
        500
        (py "Error processing file: "
            ++ str_exn (Api.HTTPException 400 (py "File must be a CSV")))),
   db).
Proof.
  intros H. unfold Api.upload_csv, Api.upload_csv_try. now rewrite H.
Qed.

(** Whatever [upload_csv] raises has the status 500.  When it returns,
    the file was parsed, [calculate_kpis] returned, the document stored
    and the response rendered, both with the detected columns and the
    indicators of the core, the response with the first five rows.  The
    collection changes through [insert_one] only. *)
Theorem upload_csv_outcome
        (file : Api.UploadFile) (db db' : collection)
        (r : Api.outcome json) :
  Api.upload_csv lower str_exn read_csv uuid4 utcnow collection insert_one
                 json JSONResponse_upload file db = (r, db') ->
  (forall e, r = Api.Throw e -> exists detail, e = Api.HTTPException 500 detail)
  /\ (forall j, r = Api.Return j ->
      exists df k,
        Api.endswith (Api.filename file) (py ".csv") = true
        /\ read_csv (Api.contents file) = Api.Return df
        /\ calculate_kpis df (detect_columns lower (columns df)) = Ok k
        /\ insert_one db
             {| Api.id := uuid4;
                Api.data_filename := Api.filename file;
                Api.upload_date := utcnow;
                Api.raw_data := df;
                Api.detected_columns := detect_columns lower (columns df);
                Api.data_kpis := k |} = (Api.Return tt, db')
        /\ JSONResponse_upload
             {| Api.content_id := uuid4;
                Api.content_filename := Api.filename file;
                Api.content_detected_columns :=
                  detect_columns lower (columns df);
                Api.content_kpis := k;
                Api.data_preview := Api.head 5 df |} = Api.Return j)
  /\ (db' = db
      \/ exists df k o,
          read_csv (Api.contents file) = Api.Return df
          /\ calculate_kpis df (detect_columns lower (columns df)) = Ok k
          /\ insert_one db
               {| Api.id := uuid4;
                  Api.data_filename := Api.filename file;
                  Api.upload_date := utcnow;
                  Api.raw_data := df;
                  Api.detected_columns := detect_columns lower (columns df);
                  Api.data_kpis := k |} = (o, db')).
Proof.
  unfold Api.upload_csv, Api.upload_csv_try.
  destruct (Api.endswith (Api.filename file) (py ".csv")); cbn [negb].
  2: { intros [= <- <-]. split; [|split].
       - intros e [= <-]. eauto.
       - intros j Hj. discriminate Hj.
       - now left. }
  destruct (read_csv (Api.contents file)) as [df|e0].
  2: { intros [= <- <-]. split; [|split].
       - intros e [= <-]. eauto.
       - intros j Hj. discriminate Hj.
       - now left. }
  destruct (calculate_kpis df (detect_columns lower (columns df)))
    as [k|e0] eqn:Hcalc.
  2: { intros [= <- <-]. split; [|split].
       - intros e [= <-]. eauto.
       - intros j Hj. discriminate Hj.
       - now left. }
  destruct (insert_one db _) as [[[]|e0] db1] eqn:Hins.
  2: { intros [= <- <-]. split; [|split].
       - intros e [= <-]. eauto.
       - intros j Hj. discriminate Hj.
       - right. exists df, k, (Api.Throw e0).
         split; [reflexivity | split; [exact Hcalc | exact Hins]]. }
  cbn [Api.id].
  destruct (JSONResponse_upload _) as [j0|e0] eqn:Hjson;
    intros [= <- <-]; (split; [|split]).
  - intros e He. discriminate He.
  - intros j [= <-]. exists df, k.
    split; [reflexivity|]. split; [reflexivity|]. split; [exact Hcalc|].
    split; [exact Hins | exact Hjson].
  - right. exists df, k, (Api.Return tt).
    split; [reflexivity | split; [exact Hcalc | exact Hins]].
  - intros e [= <-]. eauto.
  - intros j Hj. discriminate Hj.
  - right. exists df, k, (Api.Return tt).
    split; [reflexivity | split; [exact Hcalc | exact Hins]].
Qed.

(** A request for an identifier that is not stored is answered with the
    status 500, not 404: the exception of status 404 is caught by the
    [except Exception] of the route, like any other. *)
Theorem get_financial_data_not_found (data_id : str) (db : collection) :
  find_one db data_id = Api.Return None ->
  Api.get_financial_data str_exn collection document find_one json
                         JSONResponse_document data_id db =
  Api.Throw
    (Api.HTTPException
       500
       (py "Error retrieving data: "
           ++ str_exn (Api.HTTPException 404
                                         (py "Financial data not found")))).
Proof. intros H. unfold Api.get_financial_data. now rewrite H. Qed.

End RouteFacts.

Lemma upload_csv_rejected_name_witness :
  fst (Api.upload_csv lower_ascii (fun _ => []) (fun _ => Api.Return [])
                      [] 0 (list Api.FinancialData)
                      (fun db d => (Api.Return tt, d :: db))
                      Api.upload_content Api.Return
                      {| Api.filename := py "test.txt"; Api.contents := [] |}
                      []) =
  Api.Throw (Api.HTTPException 500 (py "Error processing file: ")).
Proof.
  rewrite (upload_csv_rejected_name
             lower_ascii (fun _ => []) (fun _ => Api.Return [])
             [] 0 (list Api.FinancialData)
             (fun db d => (Api.Return tt, d :: db))
             Api.upload_content Api.Return
             {| Api.filename := py "test.txt"; Api.contents := [] |} []).
  - reflexivity.
  - reflexivity.
Defined.

Lemma upload_csv_outcome_witness :
  exists df k,
    calculate_kpis df (detect_columns lower_ascii (columns df)) = Ok k
    /\ [ {| Api.id := py "id-1";
            Api.data_filename := py "sample.csv";
            Api.upload_date := 0;
            Api.raw_data := df;
            Api.detected_columns := detect_columns lower_ascii (columns df);
            Api.data_kpis := k |} ] =
       [ {| Api.id := py "id-1";
            Api.data_filename := py "sample.csv";
            Api.upload_date := 0;
            Api.raw_data := loss_frame;
            Api.detected_columns :=
              detect_columns lower_ascii (columns loss_frame);
            Api.data_kpis :=
              {| revenus_totaux := 10; ebitda := 7; resultat_net := 7;
                 free_cash_flow := 5; marge_nette := 70 |} |} ].
Proof.
  destruct (upload_csv_outcome
              lower_ascii (fun _ => []) (fun _ => Api.Return loss_frame)
              (py "id-1") 0 (list Api.FinancialData)
              (fun db d => (Api.Return tt, d :: db))
              Api.upload_content Api.Return
              {| Api.filename := py "sample.csv"; Api.contents := [] |}
              []
              [ {| Api.id := py "id-1";
                   Api.data_filename := py "sample.csv";
                   Api.upload_date := 0;
                   Api.raw_data := loss_frame;
                   Api.detected_columns :=
                     detect_columns lower_ascii (columns loss_frame);
                   Api.data_kpis :=
                     {| revenus_totaux := 10; ebitda := 7; resultat_net := 7;
                        free_cash_flow := 5; marge_nette := 70 |} |} ]
              (Api.Return
                 {| Api.content_id := py "id-1";
                    Api.content_filename := py "sample.csv";
                    Api.content_detected_columns :=
                      detect_columns lower_ascii (columns loss_frame);
                    Api.content_kpis :=
                      {| revenus_totaux := 10; ebitda := 7;
                         resultat_net := 7; free_cash_flow := 5;
                         marge_nette := 70 |};
                    Api.data_preview := Api.head 5 loss_frame |}))
    as [_ [H _]].
  - vm_compute. reflexivity.
  - destruct (H _ eq_refl) as (df & k & _ & _ & Hk & Hins & _).
    exists df, k. split; [exact Hk|].
    exact (f_equal snd Hins).
Defined.

Lemma get_financial_data_not_found_witness :
  Api.get_financial_data (fun _ => []) (list Api.FinancialData)
                         Api.FinancialData (fun _ _ => Api.Return None)
                         unit (fun _ => Api.Return tt)
                         (py "nonexistent-id") [] =
  Api.Throw (Api.HTTPException 500 (py "Error retrieving data: ")).
Proof.
  rewrite (get_financial_data_not_found
             (fun _ => []) (list Api.FinancialData) Api.FinancialData
             (fun _ _ => Api.Return None) unit (fun _ => Api.Return tt)
             (py "nonexistent-id") []).
  - reflexivity.
  - reflexivity.
Defined.
